(** * fpl-compare: the caching proxy of [server.js]

    A shallow embedding of [src/server.js]: the two staleness caches
    ([getBootstrapStatic], [getFixtures]), the player projector
    ([mapPlayer]) and the three request handlers, followed by the
    properties the specification states about them.

    Conventions of the embedding.
    - Upstream JSON objects are records.  A field the code compares or
      computes with (ids, the gameweek) has its JSON type; a field the
      code only copies is a [JsVal], where [JUndefined] stands for a key
      that is missing upstream.
    - JSON integers are [Z].
    - The handlers of the two parameterised routes take the value of
      [Number(req.params.x)] as an argument, as a [JsNumber]; the text
      of the parameter is not modelled.
    - [Date.now()] and the outcome of an upstream GET are arguments of the
      function that performs them; the GETs that were issued are
      recorded in the world.
    - Arrays of fixtures live in a heap and are passed by reference,
      because [Array.prototype.sort] works in place. *)

From Stdlib Require Import ZArith String.
From stdpp Require Import base option list sorting gmap strings.

Local Open Scope Z_scope.

(** ** JavaScript values *)

(** A JSON scalar, or [undefined] for a missing key. *)
Inductive JsVal : Type :=
  | JUndefined
  | JNull
  | JBool (b : bool)
  | JNum (z : Z)
  | JStr (s : string).

(** A number as [Number(s)] returns it, up to what the handlers can
    observe of it (its truthiness, and [===] with an integer id): [NaN],
    an integer, or [NotInteger] for every other number, that is the
    finite non-integers and the two infinities, which are all truthy
    and equal to no integer.  Both zeros are [Int 0]. *)
Inductive JsNumber : Type :=
  | NaN
  | Int (z : Z)
  | NotInteger.

#[global] Instance JsVal_eq_dec : EqDecision JsVal.
Proof. solve_decision. Defined.

#[global] Instance JsNumber_eq_dec : EqDecision JsNumber.
Proof. solve_decision. Defined.

(** The gameweek of a fixture as upstream has it: the key is missing,
    it is [null], or it is a number. *)
Inductive Event : Type :=
  | EventUndefined
  | EventNull
  | EventNum (gw : Z).

#[global] Instance Event_eq_dec : EqDecision Event.
Proof. solve_decision. Defined.

(** [!n] for a number: only [NaN] and zero are falsy. *)
Definition number_falsy (n : JsNumber) : bool :=
  match n with
  | NaN => true
  | Int z => z =? 0
  | NotInteger => false
  end.

(** [x === n] for an integer [x] read from JSON and a number [n]. *)
Definition strict_eq_num (x : Z) (n : JsNumber) : bool :=
  match n with
  | Int z => x =? z
  | NaN | NotInteger => false
  end.

(** ** Upstream records *)

Module Team.
Record t : Type := mk {
  id : Z;
  name : JsVal;
  strength_attack_home : JsVal;
  strength_attack_away : JsVal;
  strength_defence_home : JsVal;
  strength_defence_away : JsVal
}.
End Team.

Module ElementType.
Record t : Type := mk {
  id : Z;
  singular_name_short : JsVal
}.
End ElementType.

Module RawPlayer.
Record t : Type := mk {
  id : Z;
  web_name : JsVal;
  first_name : JsVal;
  second_name : JsVal;
  team : Z;
  element_type : Z;
  now_cost : JsVal;
  total_points : JsVal;
  minutes : JsVal;
  goals_scored : JsVal;
  assists : JsVal;
  clean_sheets : JsVal;
  goals_conceded : JsVal;
  own_goals : JsVal;
  penalties_saved : JsVal;
  penalties_missed : JsVal;
  yellow_cards : JsVal;
  red_cards : JsVal;
  saves : JsVal;
  bonus : JsVal;
  bps : JsVal;
  influence : JsVal;
  creativity : JsVal;
  threat : JsVal;
  ict_index : JsVal;
  form : JsVal;
  points_per_game : JsVal;
  selected_by_percent : JsVal;
  ep_next : JsVal;
  ep_this : JsVal;
  expected_goals : JsVal;
  expected_assists : JsVal;
  expected_goal_involvements : JsVal;
  expected_goals_conceded : JsVal
}.
End RawPlayer.

Module Fixture.
(** [event] is the gameweek; upstream sends [null] for a fixture that
    has none. *)
Record t : Type := mk {
  id : Z;
  event : Event;
  team_h : Z;
  team_a : Z;
  team_h_difficulty : JsVal;
  team_a_difficulty : JsVal;
  kickoff_time : JsVal
}.
End Fixture.

Module Bootstrap.
(** A key that is missing upstream is [None]; the handlers read each
    one as [data.key || []]. *)
Record t : Type := mk {
  elements : option (list RawPlayer.t);
  teams : option (list Team.t);
  element_types : option (list ElementType.t)
}.
End Bootstrap.

(** ** Response records *)

Module Stats.
Record t : Type := mk {
  now_cost : JsVal;
  total_points : JsVal;
  minutes : JsVal;
  goals_scored : JsVal;
  assists : JsVal;
  clean_sheets : JsVal;
  goals_conceded : JsVal;
  own_goals : JsVal;
  penalties_saved : JsVal;
  penalties_missed : JsVal;
  yellow_cards : JsVal;
  red_cards : JsVal;
  saves : JsVal;
  bonus : JsVal;
  bps : JsVal;
  influence : JsVal;
  creativity : JsVal;
  threat : JsVal;
  ict_index : JsVal;
  form : JsVal;
  points_per_game : JsVal;
  selected_by_percent : JsVal;
  ep_next : JsVal;
  ep_this : JsVal;
  expected_goals : JsVal;
  expected_assists : JsVal;
  expected_goal_involvements : JsVal;
  expected_goals_conceded : JsVal
}.
End Stats.

Module PlayerView.
Record t : Type := mk {
  id : Z;
  web_name : JsVal;
  first_name : JsVal;
  second_name : JsVal;
  team_id : Z;
  team : JsVal;
  position : JsVal;
  stats : Stats.t
}.
End PlayerView.

Module SimpleTeam.
Record t : Type := mk {
  id : Z;
  name : JsVal
}.
End SimpleTeam.

Module FixtureView.
Record t : Type := mk {
  gw : Event;
  is_home : bool;
  opponent_team_id : Z;
  opponent_name : JsVal;
  difficulty : JsVal;
  opponent_def_strength : JsVal;
  opponent_att_strength : JsVal;
  kickoff_time : JsVal
}.
End FixtureView.

(** ** [Array.prototype.find] *)

Fixpoint array_find {A : Type} (p : A -> bool) (l : list A) : option A :=
  match l with
  | [] => None
  | x :: l' => if p x then Some x else array_find p l'
  end.

(** ** The player projector *)

Definition mapPlayer (rawPlayer : RawPlayer.t) (teams : list Team.t)
    (elementsTypes : list ElementType.t) : PlayerView.t :=
  let team := array_find (fun t => Team.id t =? RawPlayer.team rawPlayer) teams in
  let type :=
    array_find (fun et => ElementType.id et =? RawPlayer.element_type rawPlayer)
      elementsTypes in
  {| PlayerView.id := RawPlayer.id rawPlayer;
     PlayerView.web_name := RawPlayer.web_name rawPlayer;
     PlayerView.first_name := RawPlayer.first_name rawPlayer;
     PlayerView.second_name := RawPlayer.second_name rawPlayer;
     PlayerView.team_id := RawPlayer.team rawPlayer;
     PlayerView.team :=
       match team with Some t => Team.name t | None => JStr "Unknown" end;
     PlayerView.position :=
       match type with
       | Some et => ElementType.singular_name_short et
       | None => JStr "UNK"
       end;
     PlayerView.stats :=
       {| Stats.now_cost := RawPlayer.now_cost rawPlayer;
          Stats.total_points := RawPlayer.total_points rawPlayer;
          Stats.minutes := RawPlayer.minutes rawPlayer;
          Stats.goals_scored := RawPlayer.goals_scored rawPlayer;
          Stats.assists := RawPlayer.assists rawPlayer;
          Stats.clean_sheets := RawPlayer.clean_sheets rawPlayer;
          Stats.goals_conceded := RawPlayer.goals_conceded rawPlayer;
          Stats.own_goals := RawPlayer.own_goals rawPlayer;
          Stats.penalties_saved := RawPlayer.penalties_saved rawPlayer;
          Stats.penalties_missed := RawPlayer.penalties_missed rawPlayer;
          Stats.yellow_cards := RawPlayer.yellow_cards rawPlayer;
          Stats.red_cards := RawPlayer.red_cards rawPlayer;
          Stats.saves := RawPlayer.saves rawPlayer;
          Stats.bonus := RawPlayer.bonus rawPlayer;
          Stats.bps := RawPlayer.bps rawPlayer;
          Stats.influence := RawPlayer.influence rawPlayer;
          Stats.creativity := RawPlayer.creativity rawPlayer;
          Stats.threat := RawPlayer.threat rawPlayer;
          Stats.ict_index := RawPlayer.ict_index rawPlayer;
          Stats.form := RawPlayer.form rawPlayer;
          Stats.points_per_game := RawPlayer.points_per_game rawPlayer;
          Stats.selected_by_percent := RawPlayer.selected_by_percent rawPlayer;
          Stats.ep_next := RawPlayer.ep_next rawPlayer;
          Stats.ep_this := RawPlayer.ep_this rawPlayer;
          Stats.expected_goals := RawPlayer.expected_goals rawPlayer;
          Stats.expected_assists := RawPlayer.expected_assists rawPlayer;
          Stats.expected_goal_involvements :=
            RawPlayer.expected_goal_involvements rawPlayer;
          Stats.expected_goals_conceded :=
            RawPlayer.expected_goals_conceded rawPlayer |} |}.

(** ** The world: module variables, heap, upstream *)

(** A reference to an array of fixtures. *)
Definition loc : Type := nat.

(** The module-level variables of [server.js], the heap of fixture
    arrays, and the URLs requested from upstream so far (oldest first).
    [cachedFixtures] holds a reference: the array that [getFixtures]
    returns is the one the cache keeps. *)
Record World : Type := mkWorld {
  cachedBootstrap : option Bootstrap.t;
  bootstrapTimestamp : Z;
  cachedFixtures : option loc;
  fixturesTimestamp : Z;
  heap : list (list Fixture.t);
  requests : list string
}.

(** The state when the module has been loaded. *)
Definition initial_world : World :=
  {| cachedBootstrap := None; bootstrapTimestamp := 0;
     cachedFixtures := None; fixturesTimestamp := 0;
     heap := []; requests := [] |}.

Definition BOOTSTRAP_CACHE_MS : Z := 60 * 1000.
Definition FIXTURES_CACHE_MS : Z := 60 * 1000.

Definition BOOTSTRAP_URL : string :=
  "https://fantasy.premierleague.com/api/bootstrap-static/".
Definition FIXTURES_URL : string :=
  "https://fantasy.premierleague.com/api/fixtures/?future=1".

(** What upstream does with a GET, should one be issued: [fetch] rejects
    (DNS, connect, timeout), or resolves to a response with a status and
    a body; [json = None] is a body that [res.json()] rejects. *)
Inductive Fetched (T : Type) : Type :=
  | Rejected
  | Responded (status : Z) (json : option T).
Arguments Rejected {T}.
Arguments Responded {T} status json.

Inductive Exn : Type :=
  | FetchError
  | ApiError (message : string) (status : Z)
  | InvalidJson
  | TypeError.

Inductive Completion (A : Type) : Type :=
  | Returned (a : A)
  | Thrown (e : Exn).
Arguments Returned {A} a.
Arguments Thrown {A} e.

(** A computation that reads and writes the world and may throw. *)
Definition Js (A : Type) : Type := World -> Completion A * World.

#[global] Instance Js_ret : MRet Js :=
  fun A a w => (Returned a, w).

#[global] Instance Js_bind : MBind Js :=
  fun A B k m w =>
    match m w with
    | (Returned a, w') => k a w'
    | (Thrown e, w') => (Thrown e, w')
    end.

Definition throw {A : Type} (e : Exn) : Js A :=
  fun w => (Thrown e, w).

Definition get {A : Type} (field : World -> A) : Js A :=
  fun w => (Returned (field w), w).

(** [cachedBootstrap = data; bootstrapTimestamp = now;] *)
Definition store_bootstrap (data : Bootstrap.t) (now : Z) (w : World) : World :=
  {| cachedBootstrap := Some data; bootstrapTimestamp := now;
     cachedFixtures := cachedFixtures w;
     fixturesTimestamp := fixturesTimestamp w;
     heap := heap w; requests := requests w |}.

Definition set_cachedBootstrap (data : Bootstrap.t) (now : Z) : Js unit :=
  fun w => (Returned tt, store_bootstrap data now w).

(** [cachedFixtures = data; fixturesTimestamp = now;] *)
Definition store_fixtures (data : loc) (now : Z) (w : World) : World :=
  {| cachedBootstrap := cachedBootstrap w;
     bootstrapTimestamp := bootstrapTimestamp w;
     cachedFixtures := Some data; fixturesTimestamp := now;
     heap := heap w; requests := requests w |}.

Definition set_cachedFixtures (data : loc) (now : Z) : Js unit :=
  fun w => (Returned tt, store_fixtures data now w).

Definition set_heap (h : list (list Fixture.t)) (w : World) : World :=
  {| cachedBootstrap := cachedBootstrap w;
     bootstrapTimestamp := bootstrapTimestamp w;
     cachedFixtures := cachedFixtures w;
     fixturesTimestamp := fixturesTimestamp w;
     heap := h; requests := requests w |}.

(** A new array object. *)
Definition alloc (a : list Fixture.t) : Js loc :=
  fun w => (Returned (length (heap w)), set_heap (heap w ++ [a]) w).

(** The elements of the array behind a reference.  Every reference the
    program holds is inside the heap; the [TypeError] branch is there to
    make the function total. *)
Definition read (l : loc) : Js (list Fixture.t) :=
  fun w =>
    match heap w !! l with
    | Some a => (Returned a, w)
    | None => (Thrown TypeError, w)
    end.

(** Overwrites the elements of an existing array object. *)
Definition write (l : loc) (a : list Fixture.t) : Js unit :=
  fun w => (Returned tt, set_heap (<[l := a]> (heap w)) w).

(** Records a GET to [url]. *)
Definition log_request (url : string) (w : World) : World :=
  {| cachedBootstrap := cachedBootstrap w;
     bootstrapTimestamp := bootstrapTimestamp w;
     cachedFixtures := cachedFixtures w;
     fixturesTimestamp := fixturesTimestamp w;
     heap := heap w; requests := requests w ++ [url] |}.

(** [fetch(url)]: the request is issued, then upstream decides. *)
Definition fetch {T : Type} (url : string) (upstream : Fetched T)
  : Js (Z * option T) :=
  fun w =>
    match upstream with
    | Rejected => (Thrown FetchError, log_request url w)
    | Responded status json => (Returned (status, json), log_request url w)
    end.

(** [res.ok] *)
Definition ok {T : Type} (res : Z * option T) : bool :=
  (200 <=? res.1) && (res.1 <=? 299).

(** [res.json()] *)
Definition json {T : Type} (res : Z * option T) : Js T :=
  match res.2 with
  | Some data => mret data
  | None => throw InvalidJson
  end.

(** ** The staleness caches *)

Definition getBootstrapStatic (now : Z) (upstream : Fetched Bootstrap.t)
  : Js Bootstrap.t :=
  let refresh : Js Bootstrap.t :=
    res ← fetch BOOTSTRAP_URL upstream;
    if negb (ok res) then throw (ApiError "FPL bootstrap API error: " res.1)
    else
      data ← json res;
      _ ← set_cachedBootstrap data now;
      mret data in
  cached ← get cachedBootstrap;
  timestamp ← get bootstrapTimestamp;
  match cached with
  | Some data =>
      if now - timestamp <? BOOTSTRAP_CACHE_MS then mret data else refresh
  | None => refresh
  end.

(** [res.json()] builds a new array; the cache and the caller share it. *)
Definition getFixtures (now : Z) (upstream : Fetched (list Fixture.t))
  : Js loc :=
  let refresh : Js loc :=
    res ← fetch FIXTURES_URL upstream;
    if negb (ok res) then throw (ApiError "FPL fixtures API error: " res.1)
    else
      parsed ← json res;
      data ← alloc parsed;
      _ ← set_cachedFixtures data now;
      mret data in
  cached ← get cachedFixtures;
  timestamp ← get fixturesTimestamp;
  match cached with
  | Some data =>
      if now - timestamp <? FIXTURES_CACHE_MS then mret data else refresh
  | None => refresh
  end.

(** ** Array methods *)

(** [Array.prototype.sort(cmp)].  ECMAScript requires the sort to be
    stable, and [cmp x y <= 0] keeps [x] in front of [y].  [insert_sorted]
    puts an element that came first in front of everything it does not
    exceed. *)
Fixpoint insert_sorted {A : Type} (cmp : A -> A -> Z) (x : A) (l : list A)
  : list A :=
  match l with
  | [] => [x]
  | y :: l' =>
      if 0 <? cmp x y then y :: insert_sorted cmp x l' else x :: y :: l'
  end.

Fixpoint sorted_copy {A : Type} (cmp : A -> A -> Z) (l : list A) : list A :=
  match l with
  | [] => []
  | x :: l' => insert_sorted cmp x (sorted_copy cmp l')
  end.

(** [a.filter(p)]: a new array. *)
Definition array_filter (p : Fixture.t -> bool) (a : loc) : Js loc :=
  elements ← read a;
  alloc (List.filter p elements).

(** [a.sort(cmp)]: reorders [a] itself and returns it. *)
Definition array_sort (cmp : Fixture.t -> Fixture.t -> Z) (a : loc) : Js loc :=
  elements ← read a;
  _ ← write a (sorted_copy cmp elements);
  mret a.

(** [a.slice(0, n)]: a new array. *)
Definition array_slice (n : nat) (a : loc) : Js loc :=
  elements ← read a;
  alloc (take n elements).

(** [a.map(f)]: a new array.  The handler hands it to [res.json] and
    nothing writes to it, so it is a value. *)
Definition array_map {B : Type} (f : Fixture.t -> B) (a : loc) : Js (list B) :=
  elements ← read a;
  mret (map f elements).

(** ** Replies *)

Inductive Body : Type :=
  | ErrorBody (error : string)
  | PlayersBody (players : list PlayerView.t) (teams : list SimpleTeam.t)
  | PlayerBody (player : PlayerView.t)
  | TeamFixturesBody (team_id : JsNumber) (team_name : JsVal)
      (fixtures : list FixtureView.t).

Record Reply : Type := mkReply {
  status : Z;
  body : Body
}.

(** [res.json(b)] *)
Definition res_json (b : Body) : Js Reply :=
  mret {| status := 200; body := b |}.

(** [res.status(code).json(b)] *)
Definition res_status_json (code : Z) (b : Body) : Js Reply :=
  mret {| status := code; body := b |}.

(** The [try { ... } catch (err) { ... res.status(500).json({error}) }]
    around every handler. *)
Definition try_catch_500 (error : string) (handler : Js Reply)
  : World -> Reply * World :=
  fun w =>
    match handler w with
    | (Returned r, w') => (r, w')
    | (Thrown _, w') => ({| status := 500; body := ErrorBody error |}, w')
    end.

(** [await Promise.all([p, q])]: both calls are started, and each runs
    to its end whatever happens to the other; the [await] throws when one
    of them threw.  The two getters work on different variables, so the
    order in which their requests complete makes no difference. *)
Definition promise_all {A B : Type} (p : Js A) (q : Js B) : Js (A * B) :=
  fun w =>
    let '(a, w1) := p w in
    let '(b, w2) := q w1 in
    match a, b with
    | Returned x, Returned y => (Returned (x, y), w2)
    | Thrown e, _ => (Thrown e, w2)
    | Returned _, Thrown e => (Thrown e, w2)
    end.

(** ** GET /api/players *)

Definition simpleTeam (t : Team.t) : SimpleTeam.t :=
  {| SimpleTeam.id := Team.id t; SimpleTeam.name := Team.name t |}.

Definition players_handler (now : Z) (upstream : Fetched Bootstrap.t)
  : World -> Reply * World :=
  try_catch_500 "Failed to fetch FPL data" (
    data ← getBootstrapStatic now upstream;
    let teams := default [] (Bootstrap.teams data) in
    let elementTypes := default [] (Bootstrap.element_types data) in
    let players :=
      map (fun p => mapPlayer p teams elementTypes)
        (default [] (Bootstrap.elements data)) in
    let simpleTeams := map simpleTeam teams in
    res_json (PlayersBody players simpleTeams)).

(** ** GET /api/player/:id

    [id] is the value of [Number(req.params.id)]. *)

Definition player_handler (id : JsNumber) (now : Z)
    (upstream : Fetched Bootstrap.t) : World -> Reply * World :=
  try_catch_500 "Failed to fetch player" (
    data ← getBootstrapStatic now upstream;
    let teams := default [] (Bootstrap.teams data) in
    let elementTypes := default [] (Bootstrap.element_types data) in
    let playerRaw :=
      array_find (fun p => strict_eq_num (RawPlayer.id p) id)
        (default [] (Bootstrap.elements data)) in
    match playerRaw with
    | None => res_status_json 404 (ErrorBody "Player not found")
    | Some playerRaw => res_json (PlayerBody (mapPlayer playerRaw teams elementTypes))
    end).

(** ** GET /api/team-fixtures/:teamId *)

(** [e || d] for a gameweek [e] and a number [d]: [undefined], [null]
    and [0] are falsy. *)
Definition or_default (e : Event) (d : Z) : Z :=
  match e with
  | EventNum g => if g =? 0 then d else g
  | EventUndefined | EventNull => d
  end.

(** The filter callback. *)
Definition plays (teamId : JsNumber) (f : Fixture.t) : bool :=
  strict_eq_num (Fixture.team_h f) teamId
  || strict_eq_num (Fixture.team_a f) teamId.

(** The sort callback. *)
Definition compareEvent (a b : Fixture.t) : Z :=
  let evA := or_default (Fixture.event a) 999 in
  let evB := or_default (Fixture.event b) 999 in
  evA - evB.

(** The map callback. *)
Definition fixtureView (teamId : JsNumber) (teamMap : gmap Z Team.t)
    (f : Fixture.t) : FixtureView.t :=
  let isHome := strict_eq_num (Fixture.team_h f) teamId in
  let opponentId := if isHome then Fixture.team_a f else Fixture.team_h f in
  let opponentTeam := teamMap !! opponentId in
  let opponentName :=
    match opponentTeam with Some t => Team.name t | None => JStr "Unknown" end in
  let gw := Fixture.event f in
  let difficulty :=
    if isHome then Fixture.team_h_difficulty f else Fixture.team_a_difficulty f in
  let opponentDefStrength :=
    match opponentTeam with
    | Some t =>
        if isHome then Team.strength_defence_away t
        else Team.strength_defence_home t
    | None => JNull
    end in
  let opponentAttStrength :=
    match opponentTeam with
    | Some t =>
        if isHome then Team.strength_attack_away t
        else Team.strength_attack_home t
    | None => JNull
    end in
  {| FixtureView.gw := gw;
     FixtureView.is_home := isHome;
     FixtureView.opponent_team_id := opponentId;
     FixtureView.opponent_name := opponentName;
     FixtureView.difficulty := difficulty;
     FixtureView.opponent_def_strength := opponentDefStrength;
     FixtureView.opponent_att_strength := opponentAttStrength;
     FixtureView.kickoff_time := Fixture.kickoff_time f |}.

(** [teams.forEach((t) => teamMap.set(t.id, t))] on a new [Map]: a later
    team replaces an earlier one with the same id. *)
Definition buildTeamMap (teams : list Team.t) : gmap Z Team.t :=
  foldl (fun teamMap t => <[Team.id t := t]> teamMap) ∅ teams.

(** The chain [fixtures.filter(..).sort(..).slice(0, 5).map(..)]. *)
Definition teamFixtures (teamId : JsNumber) (teamMap : gmap Z Team.t)
    (fixtures : loc) : Js (list FixtureView.t) :=
  filtered ← array_filter (plays teamId) fixtures;
  sorted ← array_sort compareEvent filtered;
  sliced ← array_slice 5 sorted;
  array_map (fixtureView teamId teamMap) sliced.

(** The handler; [teamId] is the value of [Number(req.params.teamId)]. *)
Definition team_fixtures_handler (teamId : JsNumber) (now_b now_f : Z)
    (upstream_b : Fetched Bootstrap.t) (upstream_f : Fetched (list Fixture.t))
  : World -> Reply * World :=
  try_catch_500 "Failed to fetch team fixtures" (
    if number_falsy teamId then
      res_status_json 400 (ErrorBody "Invalid team id")
    else
      '(bootstrap, fixtures) ←
        promise_all (getBootstrapStatic now_b upstream_b)
                    (getFixtures now_f upstream_f);
      let teams := default [] (Bootstrap.teams bootstrap) in
      match array_find (fun t => strict_eq_num (Team.id t) teamId) teams with
      | None => res_status_json 404 (ErrorBody "Team not found")
      | Some team =>
          let teamMap := buildTeamMap teams in
          views ← teamFixtures teamId teamMap fixtures;
          res_json (TeamFixturesBody teamId (Team.name team) views)
      end).

(** ** Vocabulary of the statements *)

(** Order by a numeric key, and the test for one key. *)
Definition key_le {A : Type} (key : A -> Z) (x y : A) : Prop := key x <= key y.

Definition has_key {A : Type} (key : A -> Z) (k : Z) (x : A) : bool :=
  key x =? k.

(** The fetch does not deliver a payload: [fetch] rejects, or the status
    is outside 200..299. *)
Definition failed {T : Type} (upstream : Fetched T) : Prop :=
  match upstream with
  | Rejected => True
  | Responded status json => ok (status, json) = false
  end.

(** The guard of [getBootstrapStatic] and of [getFixtures]:
    [cached && now - timestamp < ttl]. *)
Definition bootstrap_fresh (now : Z) (w : World) : Prop :=
  is_Some (cachedBootstrap w) /\ now - bootstrapTimestamp w < BOOTSTRAP_CACHE_MS.

Definition fixtures_fresh (now : Z) (w : World) : Prop :=
  is_Some (cachedFixtures w) /\ now - fixturesTimestamp w < FIXTURES_CACHE_MS.

(** The elements of the array the fixtures cache refers to. *)
Definition cachedFixturesPayload (w : World) : option (list Fixture.t) :=
  match cachedFixtures w with
  | Some l => heap w !! l
  | None => None
  end.

(** The key the sort callback orders by. *)
Definition sortKey (f : Fixture.t) : Z := or_default (Fixture.event f) 999.

(** What the chain [filter/sort/slice] retains of an array with the
    elements [fixtures]. *)
Definition selectedFixtures (teamId : JsNumber) (fixtures : list Fixture.t)
  : list Fixture.t :=
  take 5 (sorted_copy compareEvent (List.filter (plays teamId) fixtures)).

(** The selection as the specification words it: ascending by the
    gameweek number, with 999 for a fixture that has none. *)
Definition gameweek_or_999 (f : Fixture.t) : Z :=
  match Fixture.event f with
  | EventNum g => g
  | EventUndefined | EventNull => 999
  end.

Definition selectUpcoming_spec (teamId : JsNumber) (fixtures : list Fixture.t)
  : list Fixture.t :=
  take 5
    (sorted_copy (fun a b => gameweek_or_999 a - gameweek_or_999 b)
       (List.filter (plays teamId) fixtures)).

(** ** Sample data *)

Definition sample_team (id : Z) (name : string) (strength : Z) : Team.t :=
  {| Team.id := id; Team.name := JStr name;
     Team.strength_attack_home := JNum (strength + 30);
     Team.strength_attack_away := JNum (strength + 10);
     Team.strength_defence_home := JNum (strength + 20);
     Team.strength_defence_away := JNum strength |}.

Definition sample_teams : list Team.t :=
  [sample_team 1 "Arsenal" 1300; sample_team 2 "Aston Villa" 1100;
   sample_team 3 "Bournemouth" 1000].

Definition sample_element_types : list ElementType.t :=
  [ElementType.mk 1 (JStr "GKP"); ElementType.mk 2 (JStr "DEF");
   ElementType.mk 3 (JStr "MID"); ElementType.mk 4 (JStr "FWD")].

Definition sample_player (id : Z) (web_name : string) (team type : Z)
  : RawPlayer.t :=
  {| RawPlayer.id := id;
     RawPlayer.web_name := JStr web_name;
     RawPlayer.first_name := JStr "First";
     RawPlayer.second_name := JStr web_name;
     RawPlayer.team := team;
     RawPlayer.element_type := type;
     RawPlayer.now_cost := JNum 55;
     RawPlayer.total_points := JNum 40;
     RawPlayer.minutes := JNum 900;
     RawPlayer.goals_scored := JNum 3;
     RawPlayer.assists := JNum 2;
     RawPlayer.clean_sheets := JNum 4;
     RawPlayer.goals_conceded := JNum 9;
     RawPlayer.own_goals := JNum 0;
     RawPlayer.penalties_saved := JNum 0;
     RawPlayer.penalties_missed := JNum 0;
     RawPlayer.yellow_cards := JNum 1;
     RawPlayer.red_cards := JNum 0;
     RawPlayer.saves := JNum 0;
     RawPlayer.bonus := JNum 5;
     RawPlayer.bps := JNum 120;
     RawPlayer.influence := JStr "101.2";
     RawPlayer.creativity := JStr "88.0";
     RawPlayer.threat := JStr "140.0";
     RawPlayer.ict_index := JStr "32.9";
     RawPlayer.form := JStr "4.5";
     RawPlayer.points_per_game := JStr "4.0";
     RawPlayer.selected_by_percent := JStr "12.3";
     RawPlayer.ep_next := JStr "4.5";
     RawPlayer.ep_this := JNull;
     RawPlayer.expected_goals := JStr "2.41";
     RawPlayer.expected_assists := JStr "1.75";
     RawPlayer.expected_goal_involvements := JStr "4.16";
     RawPlayer.expected_goals_conceded := JUndefined |}.

Definition sample_players : list RawPlayer.t :=
  [sample_player 10 "Saka" 1 3; sample_player 20 "Watkins" 2 4;
   sample_player 30 "Loanee" 99 7].

Definition sample_bootstrap : Bootstrap.t :=
  {| Bootstrap.elements := Some sample_players;
     Bootstrap.teams := Some sample_teams;
     Bootstrap.element_types := Some sample_element_types |}.

Definition sample_fixture (id : Z) (event : Event) (team_h team_a : Z)
  : Fixture.t :=
  {| Fixture.id := id; Fixture.event := event;
     Fixture.team_h := team_h; Fixture.team_a := team_a;
     Fixture.team_h_difficulty := JNum 2;
     Fixture.team_a_difficulty := JNum 4;
     Fixture.kickoff_time := JStr "2025-08-16T14:00:00Z" |}.

(** Seven fixtures of team 1 with the gameweeks 3, 1, none, 2, 5, 4, 6,
    and one fixture of two other teams. *)
Definition sample_fixtures : list Fixture.t :=
  [sample_fixture 101 (EventNum 3) 1 2; sample_fixture 102 (EventNum 1) 3 1;
   sample_fixture 103 EventNull 1 3; sample_fixture 104 (EventNum 2) 2 1;
   sample_fixture 105 (EventNum 1) 2 3;
   sample_fixture 106 (EventNum 5) 1 7; sample_fixture 107 (EventNum 4) 3 1;
   sample_fixture 108 (EventNum 6) 1 2].

(** Both caches filled at time 1000. *)
Definition sample_world : World :=
  {| cachedBootstrap := Some sample_bootstrap; bootstrapTimestamp := 1000;
     cachedFixtures := Some 0%nat; fixturesTimestamp := 1000;
     heap := [sample_fixtures];
     requests := [BOOTSTRAP_URL; FIXTURES_URL] |}.

(** GET /api/team-fixtures/1 at time 2000, from [sample_world]. *)
Definition sample_team_fixtures_run : Reply * World :=
  Eval vm_compute in
    team_fixtures_handler (Int 1) 2000 2000 Rejected Rejected sample_world.

Definition sample_views : list FixtureView.t :=
  Eval vm_compute in
    match body sample_team_fixtures_run.1 with
    | TeamFixturesBody _ _ views => views
    | _ => []
    end.

(** ** Well-formed worlds *)

(** The reference the fixtures cache holds, if any, is inside the heap. *)
Definition wf_world (w : World) : Prop :=
  match cachedFixtures w with
  | Some l => (l < length (heap w))%nat
  | None => True
  end.

(** ** The earlier server, [src/unnamed/part_000]

    The file has one cache (for bootstrap-static) and the two player
    endpoints.  Its [mapPlayer] is the one of [server.js] field for
    field, so [mapPlayer] above stands for both. *)
Module Part000.

(** The module-level variables of the file and the URLs requested so
    far (oldest first). *)
Record World : Type := mkWorld {
  cachedBootstrap : option Bootstrap.t;
  cacheTimestamp : Z;
  requests : list string
}.

Definition CACHE_MS : Z := 60 * 1000.

Definition Js (A : Type) : Type := World -> Completion A * World.

#[global] Instance Js_ret : MRet Js :=
  fun A a w => (Returned a, w).

#[global] Instance Js_bind : MBind Js :=
  fun A B k m w =>
    match m w with
    | (Returned a, w') => k a w'
    | (Thrown e, w') => (Thrown e, w')
    end.

Definition throw {A : Type} (e : Exn) : Js A :=
  fun w => (Thrown e, w).

Definition get {A : Type} (field : World -> A) : Js A :=
  fun w => (Returned (field w), w).

(** [cachedBootstrap = data; cacheTimestamp = now;] *)
Definition set_cachedBootstrap (data : Bootstrap.t) (now : Z) : Js unit :=
  fun w =>
    (Returned tt,
     {| cachedBootstrap := Some data; cacheTimestamp := now;
        requests := requests w |}).

Definition log_request (url : string) (w : World) : World :=
  {| cachedBootstrap := cachedBootstrap w;
     cacheTimestamp := cacheTimestamp w;
     requests := requests w ++ [url] |}.

Definition fetch {T : Type} (url : string) (upstream : Fetched T)
  : Js (Z * option T) :=
  fun w =>
    match upstream with
    | Rejected => (Thrown FetchError, log_request url w)
    | Responded status json => (Returned (status, json), log_request url w)
    end.

Definition json {T : Type} (res : Z * option T) : Js T :=
  match res.2 with
  | Some data => mret data
  | None => throw InvalidJson
  end.

Definition getBootstrapStatic (now : Z) (upstream : Fetched Bootstrap.t)
  : Js Bootstrap.t :=
  let refresh : Js Bootstrap.t :=
    res ← fetch BOOTSTRAP_URL upstream;
    if negb (ok res) then throw (ApiError "FPL API error: " res.1)
    else
      data ← json res;
      _ ← set_cachedBootstrap data now;
      mret data in
  cached ← get cachedBootstrap;
  timestamp ← get cacheTimestamp;
  match cached with
  | Some data => if now - timestamp <? CACHE_MS then mret data else refresh
  | None => refresh
  end.

Definition res_json (b : Body) : Js Reply :=
  mret {| status := 200; body := b |}.

Definition res_status_json (code : Z) (b : Body) : Js Reply :=
  mret {| status := code; body := b |}.

Definition try_catch_500 (error : string) (handler : Js Reply)
  : World -> Reply * World :=
  fun w =>
    match handler w with
    | (Returned r, w') => (r, w')
    | (Thrown _, w') => ({| status := 500; body := ErrorBody error |}, w')
    end.

(** GET /api/players *)
Definition players_handler (now : Z) (upstream : Fetched Bootstrap.t)
  : World -> Reply * World :=
  try_catch_500 "Failed to fetch FPL data" (
    data ← getBootstrapStatic now upstream;
    let teams := default [] (Bootstrap.teams data) in
    let elementTypes := default [] (Bootstrap.element_types data) in
    let players :=
      map (fun p => mapPlayer p teams elementTypes)
        (default [] (Bootstrap.elements data)) in
    let simpleTeams := map simpleTeam teams in
    res_json (PlayersBody players simpleTeams)).

(** GET /api/player/:id; [id] is the value of [Number(req.params.id)]. *)
Definition player_handler (id : JsNumber) (now : Z)
    (upstream : Fetched Bootstrap.t) : World -> Reply * World :=
  try_catch_500 "Failed to fetch player" (
    data ← getBootstrapStatic now upstream;
    let teams := default [] (Bootstrap.teams data) in
    let elementTypes := default [] (Bootstrap.element_types data) in
    let playerRaw :=
      array_find (fun p => strict_eq_num (RawPlayer.id p) id)
        (default [] (Bootstrap.elements data)) in
    match playerRaw with
    | None => res_status_json 404 (ErrorBody "Player not found")
    | Some playerRaw => res_json (PlayerBody (mapPlayer playerRaw teams elementTypes))
    end).

End Part000.

(** The state of the earlier server as a view of the state of
    [server.js]: the same bootstrap entry with the same timestamp. *)
Definition same_bootstrap_cache (w0 : Part000.World) (w : World) : Prop :=
  Part000.cachedBootstrap w0 = cachedBootstrap w
  /\ Part000.cacheTimestamp w0 = bootstrapTimestamp w.

(** [sample_world] as the earlier server sees it. *)
Definition sample_world_part000 : Part000.World :=
  {| Part000.cachedBootstrap := Some sample_bootstrap;
     Part000.cacheTimestamp := 1000;
     Part000.requests := [BOOTSTRAP_URL] |}.

(** * Properties *)

(** ** Numbers *)

Lemma number_falsy_spec (n : JsNumber) :
  number_falsy n = true <-> n = NaN \/ n = Int 0.
Proof.
  destruct n as [|z|]; simpl.
  - split; [by left | done].
  - rewrite Z.eqb_eq. split; [intros ->; by right | by intros [|[= ->]]].
  - split; [done | by intros [|]].
Qed.

Lemma strict_eq_num_spec (x : Z) (n : JsNumber) :
  strict_eq_num x n = true <-> Int x = n.
Proof.
  destruct n as [|z|]; simpl; [done| |done].
  rewrite Z.eqb_eq. split; congruence.
Qed.

Lemma strict_eq_num_false (x : Z) (n : JsNumber) :
  strict_eq_num x n = false <-> Int x <> n.
Proof.
  rewrite <- strict_eq_num_spec. by destruct (strict_eq_num x n).
Qed.

(** ** [Array.prototype.find] *)

Section ArrayFind.
Context {A : Type} (p : A -> bool).

Lemma array_find_none (l : list A) :
  array_find p l = None <-> Forall (fun x => p x = false) l.
Proof.
  induction l as [|x l IH]; simpl.
  - split; [constructor | reflexivity].
  - destruct (p x) eqn:Hx.
    + split; [discriminate | intros H; inversion H; congruence].
    + rewrite IH. split; [by constructor | by inversion 1].
Qed.

Lemma array_find_some (l : list A) (x : A) :
  array_find p l = Some x <->
  exists pre post,
    l = pre ++ x :: post /\ Forall (fun y => p y = false) pre /\ p x = true.
Proof.
  induction l as [|y l IH]; simpl.
  - split; [discriminate | intros ([|??] & ? & ? & _); discriminate].
  - destruct (p y) eqn:Hy.
    + split.
      * intros [= ->]. exists [], l. by repeat split.
      * intros (pre & post & Hl & Hpre & Hx).
        destruct pre as [|z pre]; simpl in Hl; injection Hl as -> Hl; [done|].
        inversion Hpre; congruence.
    + rewrite IH. split.
      * intros (pre & post & -> & Hpre & Hx).
        exists (y :: pre), post. repeat split; [by constructor | done].
      * intros (pre & post & Hl & Hpre & Hx).
        destruct pre as [|z pre]; simpl in Hl; injection Hl as -> Hl;
          [congruence|].
        exists pre, post. repeat split; [done | by inversion Hpre | done].
Qed.

End ArrayFind.

(** ** [Array.prototype.sort] with a comparator that subtracts keys *)

Section StableSort.
Context {A : Type} (cmp : A -> A -> Z) (key : A -> Z).
Hypothesis cmp_key : forall x y, cmp x y = key x - key y.

Lemma insert_sorted_perm (x : A) (l : list A) :
  insert_sorted cmp x l ≡ₚ x :: l.
Proof.
  induction l as [|y l IH]; simpl; [done|].
  destruct (0 <? cmp x y); [|done].
  rewrite IH. apply Permutation_swap.
Qed.

Lemma sorted_copy_perm (l : list A) : sorted_copy cmp l ≡ₚ l.
Proof.
  induction l as [|x l IH]; simpl; [done|].
  by rewrite insert_sorted_perm, IH.
Qed.

Lemma insert_sorted_ascending (x : A) (l : list A) :
  StronglySorted (key_le key) l -> StronglySorted (key_le key) (insert_sorted cmp x l).
Proof.
  induction 1 as [|y l Hl IH Hy]; simpl.
  - repeat constructor.
  - destruct (0 <? cmp x y) eqn:Hc; rewrite cmp_key in Hc.
    + constructor; [done|].
      rewrite insert_sorted_perm. constructor; [|done].
      unfold key_le. lia.
    + constructor; [by constructor|].
      constructor; [unfold key_le; lia|].
      eapply Forall_impl; [exact Hy|]. unfold key_le. intros; lia.
Qed.

Lemma sorted_copy_ascending (l : list A) :
  StronglySorted (key_le key) (sorted_copy cmp l).
Proof.
  induction l; simpl; [constructor | by apply insert_sorted_ascending].
Qed.

Lemma insert_sorted_stable (k : Z) (x : A) (l : list A) :
  List.filter (has_key key k) (insert_sorted cmp x l)
  = List.filter (has_key key k) (x :: l).
Proof.
  induction l as [|y l IH]; [done|].
  cbn [insert_sorted].
  destruct (0 <? cmp x y) eqn:Hc; [|done].
  rewrite cmp_key in Hc.
  cbn [List.filter] in *. rewrite IH. unfold has_key.
  destruct (key x =? k) eqn:Hx, (key y =? k) eqn:Hy; try done. lia.
Qed.

(** Elements with equal keys keep the order they had. *)
Lemma sorted_copy_stable (k : Z) (l : list A) :
  List.filter (has_key key k) (sorted_copy cmp l) = List.filter (has_key key k) l.
Proof.
  induction l as [|x l IH]; [done|].
  cbn [sorted_copy]. rewrite insert_sorted_stable.
  cbn [List.filter]. by rewrite IH.
Qed.

Lemma filter_has_key_nil (l : list A) :
  (forall k, List.filter (has_key key k) l = []) -> l = [].
Proof.
  destruct l as [|x l]; [done|]. intros H. specialize (H (key x)).
  cbn in H. unfold has_key in H. rewrite Z.eqb_refl in H. done.
Qed.

(** Ascending order and stability leave one possible result, so every
    implementation of the ECMAScript contract returns [sorted_copy]. *)
Lemma stable_ascending_unique (l1 l2 : list A) :
  StronglySorted (key_le key) l1 -> StronglySorted (key_le key) l2 ->
  (forall k, List.filter (has_key key k) l1 = List.filter (has_key key k) l2) ->
  l1 = l2.
Proof.
  intros H1. revert l2.
  induction H1 as [|x l1 Hs1 IH Hx]; intros l2 H2 Hf.
  - symmetry. apply filter_has_key_nil. intros k. by rewrite <- Hf.
  - destruct H2 as [|y l2 Hs2 Hy].
    { apply filter_has_key_nil. intros k. by rewrite Hf. }
    assert (Hin : forall k (a : A) (l l' : list A),
               List.filter (has_key key k) l = List.filter (has_key key k) l' ->
               key a = k -> In a l -> In a l').
    { intros k a l l' E Hk Ha.
      assert (In a (List.filter (has_key key k) l)) as Hi.
      { apply filter_In. split; [done|]. unfold has_key. lia. }
      rewrite E in Hi. by apply filter_In in Hi as [? _]. }
    assert (key x = key y) as Hxy.
    { assert (key y <= key x).
      { destruct (Hin (key x) x _ _ (Hf (key x)) eq_refl (or_introl eq_refl))
          as [->|Hi]; [lia|].
        rewrite Forall_forall in Hy. apply Hy. by apply list_elem_of_In. }
      assert (key x <= key y).
      { destruct (Hin (key y) y _ _ (eq_sym (Hf (key y))) eq_refl
                    (or_introl eq_refl)) as [->|Hi]; [lia|].
        rewrite Forall_forall in Hx. apply Hx. by apply list_elem_of_In. }
      lia. }
    assert (x = y) as ->.
    { specialize (Hf (key x)). cbn in Hf. unfold has_key in Hf.
      rewrite <- Hxy, Z.eqb_refl in Hf. congruence. }
    f_equal. apply IH; [done|]. intros k. specialize (Hf k). cbn in Hf.
    destruct (has_key key k y); congruence.
Qed.

End StableSort.

(** ** The staleness caches *)

Ltac js_unfold :=
  unfold getBootstrapStatic, getFixtures, array_filter, array_sort,
    array_slice, array_map, set_cachedBootstrap, set_cachedFixtures,
    alloc, read, write, fetch, json, throw, get, res_json, res_status_json,
    mbind, mret, Js_bind, Js_ret in *.

Lemma getBootstrapStatic_hit (now : Z) (upstream : Fetched Bootstrap.t)
    (w : World) (data : Bootstrap.t) :
  cachedBootstrap w = Some data ->
  now - bootstrapTimestamp w < BOOTSTRAP_CACHE_MS ->
  getBootstrapStatic now upstream w = (Returned data, w).
Proof.
  intros Hc Ht. js_unfold. simpl. rewrite Hc.
  by destruct (Z.ltb_spec (now - bootstrapTimestamp w) BOOTSTRAP_CACHE_MS);
    [|lia].
Qed.

Lemma getBootstrapStatic_miss (now : Z) (upstream : Fetched Bootstrap.t)
    (w : World) :
  ~ bootstrap_fresh now w ->
  getBootstrapStatic now upstream w =
    match upstream with
    | Rejected => (Thrown FetchError, log_request BOOTSTRAP_URL w)
    | Responded st None =>
        if ok (st, @None Bootstrap.t)
        then (Thrown InvalidJson, log_request BOOTSTRAP_URL w)
        else (Thrown (ApiError "FPL bootstrap API error: " st),
              log_request BOOTSTRAP_URL w)
    | Responded st (Some data) =>
        if ok (st, Some data)
        then (Returned data,
              store_bootstrap data now (log_request BOOTSTRAP_URL w))
        else (Thrown (ApiError "FPL bootstrap API error: " st),
              log_request BOOTSTRAP_URL w)
    end.
Proof.
  intros Hf. js_unfold. simpl.
  assert (match cachedBootstrap w with
          | Some _ => now - bootstrapTimestamp w <? BOOTSTRAP_CACHE_MS
          | None => false
          end = false) as Hg.
  { destruct (cachedBootstrap w) eqn:Hc; [|done].
    apply Z.ltb_ge. destruct (Z.lt_ge_cases (now - bootstrapTimestamp w)
                                BOOTSTRAP_CACHE_MS); [|done].
    destruct Hf. split; [by rewrite Hc|done]. }
  destruct (cachedBootstrap w); [rewrite Hg|];
    destruct upstream as [|st [data|]]; simpl; try done;
    unfold ok; simpl; by destruct ((200 <=? st) && (st <=? 299)).
Qed.

Lemma getFixtures_hit (now : Z) (upstream : Fetched (list Fixture.t))
    (w : World) (data : loc) :
  cachedFixtures w = Some data ->
  now - fixturesTimestamp w < FIXTURES_CACHE_MS ->
  getFixtures now upstream w = (Returned data, w).
Proof.
  intros Hc Ht. js_unfold. simpl. rewrite Hc.
  by destruct (Z.ltb_spec (now - fixturesTimestamp w) FIXTURES_CACHE_MS);
    [|lia].
Qed.

Lemma getFixtures_miss (now : Z) (upstream : Fetched (list Fixture.t))
    (w : World) :
  ~ fixtures_fresh now w ->
  getFixtures now upstream w =
    match upstream with
    | Rejected => (Thrown FetchError, log_request FIXTURES_URL w)
    | Responded st None =>
        if ok (st, @None (list Fixture.t))
        then (Thrown InvalidJson, log_request FIXTURES_URL w)
        else (Thrown (ApiError "FPL fixtures API error: " st),
              log_request FIXTURES_URL w)
    | Responded st (Some parsed) =>
        if ok (st, Some parsed)
        then (Returned (length (heap w)),
              store_fixtures (length (heap w)) now
                (set_heap (heap w ++ [parsed]) (log_request FIXTURES_URL w)))
        else (Thrown (ApiError "FPL fixtures API error: " st),
              log_request FIXTURES_URL w)
    end.
Proof.
  intros Hf. js_unfold. simpl.
  assert (match cachedFixtures w with
          | Some _ => now - fixturesTimestamp w <? FIXTURES_CACHE_MS
          | None => false
          end = false) as Hg.
  { destruct (cachedFixtures w) eqn:Hc; [|done].
    apply Z.ltb_ge. destruct (Z.lt_ge_cases (now - fixturesTimestamp w)
                                FIXTURES_CACHE_MS); [|done].
    destruct Hf. split; [by rewrite Hc|done]. }
  destruct (cachedFixtures w); [rewrite Hg|];
    destruct upstream as [|st [data|]]; simpl; try done;
    unfold ok; simpl; by destruct ((200 <=? st) && (st <=? 299)).
Qed.

Lemma bootstrap_fresh_dec (now : Z) (w : World) :
  {bootstrap_fresh now w} + {~ bootstrap_fresh now w}.
Proof.
  unfold bootstrap_fresh.
  destruct (cachedBootstrap w);
    [|right; intros [[? [=]] _]].
  destruct (Z_lt_dec (now - bootstrapTimestamp w) BOOTSTRAP_CACHE_MS).
  - left. by split.
  - right. by intros [_ ?].
Qed.

Lemma fixtures_fresh_dec (now : Z) (w : World) :
  {fixtures_fresh now w} + {~ fixtures_fresh now w}.
Proof.
  unfold fixtures_fresh.
  destruct (cachedFixtures w);
    [|right; intros [[? [=]] _]].
  destruct (Z_lt_dec (now - fixturesTimestamp w) FIXTURES_CACHE_MS).
  - left. by split.
  - right. by intros [_ ?].
Qed.

(** A call issues at most one GET. *)
Lemma getBootstrapStatic_requests (now : Z) (upstream : Fetched Bootstrap.t)
    (w : World) :
  let w' := (getBootstrapStatic now upstream w).2 in
  requests w' = requests w \/ requests w' = requests w ++ [BOOTSTRAP_URL].
Proof.
  destruct (bootstrap_fresh_dec now w) as [[[d Hd] Ht]|Hn].
  - left. by rewrite (getBootstrapStatic_hit _ _ _ d).
  - right. rewrite getBootstrapStatic_miss by done.
    destruct upstream as [|st [d|]]; [done|..];
      by destruct (ok _).
Qed.

Lemma getFixtures_requests (now : Z) (upstream : Fetched (list Fixture.t))
    (w : World) :
  let w' := (getFixtures now upstream w).2 in
  requests w' = requests w \/ requests w' = requests w ++ [FIXTURES_URL].
Proof.
  destruct (fixtures_fresh_dec now w) as [[[d Hd] Ht]|Hn].
  - left. by rewrite (getFixtures_hit _ _ _ d).
  - right. rewrite getFixtures_miss by done.
    destruct upstream as [|st [d|]]; [done|..];
      by destruct (ok _).
Qed.

(** ** The chain [filter/sort/slice/map] on the heap *)

Lemma teamFixtures_run (teamId : JsNumber) (teamMap : gmap Z Team.t)
    (fixtures : loc) (w : World) (elements : list Fixture.t) :
  heap w !! fixtures = Some elements ->
  teamFixtures teamId teamMap fixtures w =
    (Returned (map (fixtureView teamId teamMap)
                 (selectedFixtures teamId elements)),
     set_heap
       (heap w
        ++ [sorted_copy compareEvent (List.filter (plays teamId) elements);
            selectedFixtures teamId elements]) w).
Proof.
  intros Hl. unfold teamFixtures, selectedFixtures. js_unfold. simpl.
  rewrite Hl. simpl.
  rewrite lookup_app_r, Nat.sub_diag by done. simpl.
  rewrite insert_app_r_alt, Nat.sub_diag by done. simpl.
  rewrite lookup_app_r, Nat.sub_diag by done. simpl.
  rewrite length_app. simpl.
  rewrite lookup_app_r by (rewrite length_app; simpl; lia).
  rewrite length_app. simpl.
  replace (length (heap w) + 1 - (length (heap w) + 1))%nat with 0%nat by lia.
  simpl. unfold set_heap. simpl. by rewrite <- app_assoc.
Qed.

Lemma teamFixtures_dangling (teamId : JsNumber) (teamMap : gmap Z Team.t)
    (fixtures : loc) (w : World) :
  heap w !! fixtures = None ->
  teamFixtures teamId teamMap fixtures w = (Thrown TypeError, w).
Proof.
  intros Hl. unfold teamFixtures. js_unfold. simpl. by rewrite Hl.
Qed.

(** The lookup table holds, for an id, the last team of the array that
    carries it. *)
Lemma buildTeamMap_snoc (teams : list Team.t) (t : Team.t) :
  buildTeamMap (teams ++ [t]) = <[Team.id t := t]> (buildTeamMap teams).
Proof. unfold buildTeamMap. by rewrite foldl_app. Qed.

Lemma buildTeamMap_lookup (teams : list Team.t) (k : Z) :
  buildTeamMap teams !! k
  = array_find (fun t => Team.id t =? k) (rev teams).
Proof.
  induction teams as [|t teams IH] using rev_ind; [done|].
  rewrite buildTeamMap_snoc, rev_app_distr. simpl.
  destruct (Z.eqb_spec (Team.id t) k) as [->|Hne].
  - by rewrite lookup_insert_eq.
  - by rewrite lookup_insert_ne.
Qed.

Lemma buildTeamMap_lookup_id (teams : list Team.t) (k : Z) (t : Team.t) :
  buildTeamMap teams !! k = Some t -> Team.id t = k /\ t ∈ teams.
Proof.
  rewrite buildTeamMap_lookup, array_find_some.
  intros (pre & post & Hl & _ & Ht). split; [lia|].
  apply list_elem_of_In, in_rev. rewrite Hl. apply in_elt.
Qed.

(** ** The handler of GET /api/team-fixtures/:teamId, step by step *)

Lemma team_fixtures_handler_invalid (parsedId : JsNumber) (now_b now_f : Z)
    (upstream_b : Fetched Bootstrap.t) (upstream_f : Fetched (list Fixture.t))
    (w : World) :
  number_falsy parsedId = true ->
  team_fixtures_handler parsedId now_b now_f upstream_b upstream_f w
  = ({| status := 400; body := ErrorBody "Invalid team id" |}, w).
Proof.
  intros Hf. unfold team_fixtures_handler, try_catch_500. by rewrite Hf.
Qed.

Lemma team_fixtures_handler_valid (parsedId : JsNumber) (now_b now_f : Z)
    (upstream_b : Fetched Bootstrap.t) (upstream_f : Fetched (list Fixture.t))
    (w : World) :
  number_falsy parsedId = false ->
  team_fixtures_handler parsedId now_b now_f upstream_b upstream_f w
  = let teamId := parsedId in
    let failure :=
      {| status := 500; body := ErrorBody "Failed to fetch team fixtures" |} in
    match promise_all (getBootstrapStatic now_b upstream_b)
            (getFixtures now_f upstream_f) w with
    | (Thrown _, w1) => (failure, w1)
    | (Returned (bootstrap, fixtures), w1) =>
        let teams := default [] (Bootstrap.teams bootstrap) in
        match array_find (fun t => strict_eq_num (Team.id t) teamId) teams with
        | None =>
            ({| status := 404; body := ErrorBody "Team not found" |}, w1)
        | Some team =>
            match heap w1 !! fixtures with
            | None => (failure, w1)
            | Some elements =>
                ({| status := 200;
                    body :=
                      TeamFixturesBody teamId (Team.name team)
                        (map (fixtureView teamId (buildTeamMap teams))
                           (selectedFixtures teamId elements)) |},
                 set_heap
                   (heap w1
                    ++ [sorted_copy compareEvent
                          (List.filter (plays teamId) elements);
                        selectedFixtures teamId elements]) w1)
            end
        end
    end.
Proof.
  intros Hf. unfold team_fixtures_handler, try_catch_500. rewrite Hf.
  cbn zeta. unfold mbind at 1, Js_bind at 1.
  destruct (promise_all _ _ w) as [[[bootstrap fixtures]|e] w1]; [|done].
  destruct (array_find _ _) as [team|]; [|done].
  unfold mbind, Js_bind.
  destruct (heap w1 !! fixtures) as [elements|] eqn:Hl.
  - by rewrite (teamFixtures_run _ _ _ _ elements).
  - by rewrite teamFixtures_dangling.
Qed.

(** What the two getters of the handler leave behind. *)
Lemma getters_outcome (now_b now_f : Z) (upstream_b : Fetched Bootstrap.t)
    (upstream_f : Fetched (list Fixture.t)) (w : World) :
  let r := promise_all (getBootstrapStatic now_b upstream_b)
             (getFixtures now_f upstream_f) w in
  (cachedBootstrap r.2 = cachedBootstrap w
   \/ exists st data,
        upstream_b = Responded st (Some data)
        /\ cachedBootstrap r.2 = Some data)
  /\ (heap r.2 = heap w /\ cachedFixtures r.2 = cachedFixtures w
      \/ exists st data,
           upstream_f = Responded st (Some data)
           /\ heap r.2 = heap w ++ [data]
           /\ cachedFixtures r.2 = Some (length (heap w)))
  /\ (forall bootstrap fixtures,
        r.1 = Returned (bootstrap, fixtures) ->
        cachedBootstrap r.2 = Some bootstrap
        /\ cachedFixtures r.2 = Some fixtures).
Proof.
  unfold promise_all.
  destruct (bootstrap_fresh_dec now_b w) as [[[b Hb] Htb]|Hnb].
  - rewrite (getBootstrapStatic_hit _ _ _ b) by done.
    destruct (fixtures_fresh_dec now_f w) as [[[l Hl] Htl]|Hnl].
    + rewrite (getFixtures_hit _ _ _ l) by done. simpl.
      repeat split; [by left | by left | congruence | congruence].
    + rewrite getFixtures_miss by done.
      destruct upstream_f as [|st [data|]];
        [| destruct (ok (st, Some data)) | destruct (ok (st, None))]; simpl;
        repeat split; try (by left); try done; try congruence.
      right. by exists st, data.
  - rewrite getBootstrapStatic_miss by done.
    destruct upstream_b as [|stb [datab|]];
      [| destruct (ok (stb, Some datab)) | destruct (ok (stb, None))].
    all: match goal with
         | |- context [getFixtures _ _ ?w1] =>
             destruct (fixtures_fresh_dec now_f w1) as [[[l Hl] Htl]|Hnl];
             [rewrite (getFixtures_hit _ _ _ l) by done
             |(rewrite getFixtures_miss by done);
              destruct upstream_f as [|st [data|]];
              [| destruct (ok (st, Some data)) | destruct (ok (st, None))]]
         end; simpl in *.
    all: repeat split; try (by left); try done; try congruence.
    all: try (right; by eexists _, _).
Qed.

(** A 200 reply, read back from the world the handler leaves. *)
Lemma team_fixtures_handler_200 (parsedId : JsNumber) (now_b now_f : Z)
    (upstream_b : Fetched Bootstrap.t) (upstream_f : Fetched (list Fixture.t))
    (w w' : World) (reply : Reply) (teamId : JsNumber) (name : JsVal)
    (views : list FixtureView.t) :
  team_fixtures_handler parsedId now_b now_f upstream_b upstream_f w
  = (reply, w') ->
  body reply = TeamFixturesBody teamId name views ->
  exists bootstrap team elements,
    teamId = parsedId
    /\ number_falsy teamId = false
    /\ status reply = 200
    /\ cachedBootstrap w' = Some bootstrap
    /\ array_find (fun t => strict_eq_num (Team.id t) teamId)
         (default [] (Bootstrap.teams bootstrap)) = Some team
    /\ name = Team.name team
    /\ cachedFixturesPayload w' = Some elements
    /\ views = map (fixtureView teamId
                      (buildTeamMap (default [] (Bootstrap.teams bootstrap))))
                 (selectedFixtures teamId elements).
Proof.
  intros Hrun Hbody.
  destruct (number_falsy parsedId) eqn:Hf.
  { rewrite team_fixtures_handler_invalid in Hrun by done.
    by injection Hrun as <- <-. }
  rewrite team_fixtures_handler_valid in Hrun by done. cbn zeta in Hrun.
  pose proof (getters_outcome now_b now_f upstream_b upstream_f w)
    as (_ & _ & Hret).
  destruct (promise_all _ _ w) as [[[bootstrap fixtures]|e] w1];
    [|by injection Hrun as <- <-].
  destruct (Hret bootstrap fixtures eq_refl) as [Hcb Hcf]. simpl in Hcb, Hcf.
  destruct (array_find _ _) as [team|] eqn:Hteam;
    [|by injection Hrun as <- <-].
  destruct (heap w1 !! fixtures) as [elements|] eqn:Hl;
    [|by injection Hrun as <- <-].
  injection Hrun as <- <-. simpl in Hbody. injection Hbody as <- <- <-.
  exists bootstrap, team, elements. repeat split; try done.
  unfold cachedFixturesPayload. simpl. rewrite Hcf.
  by apply lookup_app_l_Some.
Qed.

(** * The claims *)

(** ** The Fixture Selector *)

(** What the map callback reports about the opponent. *)
Lemma fixtureView_opponent (teamId : JsNumber) (teamMap : gmap Z Team.t)
    (f : Fixture.t) (opponent : Team.t) :
  let v := fixtureView teamId teamMap f in
  teamMap !! FixtureView.opponent_team_id v = Some opponent ->
  if FixtureView.is_home v
  then FixtureView.opponent_def_strength v = Team.strength_defence_away opponent
       /\ FixtureView.opponent_att_strength v
          = Team.strength_attack_away opponent
  else FixtureView.opponent_def_strength v = Team.strength_defence_home opponent
       /\ FixtureView.opponent_att_strength v
          = Team.strength_attack_home opponent.
Proof.
  unfold fixtureView. simpl. intros Hopp.
  destruct (strict_eq_num (Fixture.team_h f) teamId); by rewrite Hopp.
Qed.

Lemma Forall2_map_r_intro {A B : Type} (P : A -> B -> Prop) (g : A -> B)
    (l : list A) :
  (forall x, P x (g x)) -> Forall2 P l (map g l).
Proof. intros H. induction l; simpl; by constructor. Qed.

(** C1. In every 200 reply of GET /api/team-fixtures/:teamId, each
    reported fixture whose opponent is in the team lookup table carries
    the opponent's strengths for the opposite venue: when the queried team
    is at home ([is_home] is [true]) the two strengths are the opponent's
    away defence and away attack, and when it is away they are the
    opponent's home defence and home attack. *)
Theorem opponent_strength_uses_opposite_venue
    (parsedId : JsNumber) (now_b now_f : Z)
    (upstream_b : Fetched Bootstrap.t) (upstream_f : Fetched (list Fixture.t))
    (w w' : World) (reply : Reply) (teamId : JsNumber) (name : JsVal)
    (views : list FixtureView.t) :
  team_fixtures_handler parsedId now_b now_f upstream_b upstream_f w
  = (reply, w') ->
  body reply = TeamFixturesBody teamId name views ->
  exists bootstrap elements,
    cachedBootstrap w' = Some bootstrap
    /\ cachedFixturesPayload w' = Some elements
    /\ Forall2
         (fun f v =>
            FixtureView.is_home v = strict_eq_num (Fixture.team_h f) teamId
            /\ FixtureView.opponent_team_id v
               = (if FixtureView.is_home v
                  then Fixture.team_a f else Fixture.team_h f)
            /\ forall opponent,
                 buildTeamMap (default [] (Bootstrap.teams bootstrap))
                   !! FixtureView.opponent_team_id v = Some opponent ->
                 if FixtureView.is_home v
                 then FixtureView.opponent_def_strength v
                      = Team.strength_defence_away opponent
                      /\ FixtureView.opponent_att_strength v
                         = Team.strength_attack_away opponent
                 else FixtureView.opponent_def_strength v
                      = Team.strength_defence_home opponent
                      /\ FixtureView.opponent_att_strength v
                         = Team.strength_attack_home opponent)
         (selectedFixtures teamId elements) views.
Proof.
  intros Hrun Hbody.
  destruct (team_fixtures_handler_200 _ _ _ _ _ _ _ _ _ _ _ Hrun Hbody)
    as (bootstrap & team & elements & _ & _ & _ & Hb & _ & _ & Hp & ->).
  exists bootstrap, elements. repeat split; [done..|].
  apply Forall2_map_r_intro. intros f. repeat split.
  intros opponent. apply fixtureView_opponent.
Qed.

Lemma opponent_strength_uses_opposite_venue_witness :
  exists bootstrap elements,
    cachedBootstrap sample_team_fixtures_run.2 = Some bootstrap
    /\ cachedFixturesPayload sample_team_fixtures_run.2 = Some elements
    /\ Forall2
         (fun f v =>
            FixtureView.is_home v = strict_eq_num (Fixture.team_h f) (Int 1)
            /\ FixtureView.opponent_team_id v
               = (if FixtureView.is_home v
                  then Fixture.team_a f else Fixture.team_h f)
            /\ forall opponent,
                 buildTeamMap (default [] (Bootstrap.teams bootstrap))
                   !! FixtureView.opponent_team_id v = Some opponent ->
                 if FixtureView.is_home v
                 then FixtureView.opponent_def_strength v
                      = Team.strength_defence_away opponent
                      /\ FixtureView.opponent_att_strength v
                         = Team.strength_attack_away opponent
                 else FixtureView.opponent_def_strength v
                      = Team.strength_defence_home opponent
                      /\ FixtureView.opponent_att_strength v
                         = Team.strength_attack_home opponent)
         (selectedFixtures (Int 1) elements) sample_views.
Proof.
  apply (opponent_strength_uses_opposite_venue (Int 1) 2000 2000 Rejected
           Rejected sample_world sample_team_fixtures_run.2
           sample_team_fixtures_run.1 (Int 1) (JStr "Arsenal") sample_views);
    vm_compute; reflexivity.
Defined.

(** The two venues on the sample: at home to team 2 the reply carries
    team 2's away strengths, away at team 3 it carries team 3's home
    strengths. *)
Example venue_inversion_sample :
  let home := fixtureView (Int 1) (buildTeamMap sample_teams)
                (sample_fixture 101 (EventNum 3) 1 2) in
  let away := fixtureView (Int 1) (buildTeamMap sample_teams)
                (sample_fixture 102 (EventNum 1) 3 1) in
  (FixtureView.is_home home, FixtureView.opponent_def_strength home,
   FixtureView.opponent_att_strength home) = (true, JNum 1100, JNum 1110)
  /\ (FixtureView.is_home away, FixtureView.opponent_def_strength away,
      FixtureView.opponent_att_strength away) = (false, JNum 1020, JNum 1030).
Proof. by vm_compute. Qed.

(** C10. In every 200 reply of GET /api/team-fixtures/:teamId, the [gw]
    of each reported fixture is the [event] of the retained fixture as
    upstream supplied it.  A fixture whose [event] is not a number
    ([null], or a missing key) is ordered by 999 and reported with that
    same [null] or missing [gw], not with a number. *)
Theorem gw_is_the_raw_event
    (parsedId : JsNumber) (now_b now_f : Z)
    (upstream_b : Fetched Bootstrap.t) (upstream_f : Fetched (list Fixture.t))
    (w w' : World) (reply : Reply) (teamId : JsNumber) (name : JsVal)
    (views : list FixtureView.t) :
  team_fixtures_handler parsedId now_b now_f upstream_b upstream_f w
  = (reply, w') ->
  body reply = TeamFixturesBody teamId name views ->
  exists elements,
    cachedFixturesPayload w' = Some elements
    /\ Forall2
         (fun f v =>
            FixtureView.gw v = Fixture.event f
            /\ ((forall g, Fixture.event f <> EventNum g) ->
                sortKey f = 999
                /\ forall g, FixtureView.gw v <> EventNum g))
         (selectedFixtures teamId elements) views.
Proof.
  intros Hrun Hbody.
  destruct (team_fixtures_handler_200 _ _ _ _ _ _ _ _ _ _ _ Hrun Hbody)
    as (bootstrap & team & elements & _ & _ & _ & _ & _ & _ & Hp & ->).
  exists elements. split; [done|].
  apply Forall2_map_r_intro. intros f. simpl. split; [done|].
  intros He. split; [|done]. unfold sortKey.
  destruct (Fixture.event f) as [| |g]; [done..|].
  by destruct (He g).
Qed.

Lemma gw_is_the_raw_event_witness :
  exists elements,
    cachedFixturesPayload sample_team_fixtures_run.2 = Some elements
    /\ Forall2
         (fun f v =>
            FixtureView.gw v = Fixture.event f
            /\ ((forall g, Fixture.event f <> EventNum g) ->
                sortKey f = 999
                /\ forall g, FixtureView.gw v <> EventNum g))
         (selectedFixtures (Int 1) elements) sample_views.
Proof.
  apply (gw_is_the_raw_event (Int 1) 2000 2000 Rejected Rejected sample_world
           sample_team_fixtures_run.2 sample_team_fixtures_run.1 (Int 1)
           (JStr "Arsenal") sample_views);
    vm_compute; reflexivity.
Defined.

(** A fixture without a gameweek that is retained: it is ordered by 999
    and reported with no gameweek. *)
Example unset_gameweek_reported_unset :
  let f := sample_fixture 103 EventNull 1 3 in
  selectedFixtures (Int 1) [f; sample_fixture 101 (EventNum 3) 1 2]
  = [sample_fixture 101 (EventNum 3) 1 2; f]
  /\ sortKey f = 999
  /\ FixtureView.gw (fixtureView (Int 1) (buildTeamMap sample_teams) f)
     = EventNull.
Proof. by vm_compute. Qed.

Lemma plays_spec (teamId : JsNumber) (f : Fixture.t) :
  plays teamId f = true
  <-> Int (Fixture.team_h f) = teamId \/ Int (Fixture.team_a f) = teamId.
Proof.
  unfold plays. by rewrite orb_true_iff, !strict_eq_num_spec.
Qed.

Lemma sortKey_spec (f : Fixture.t) :
  sortKey f = match Fixture.event f with
              | EventUndefined | EventNull | EventNum 0 => 999
              | EventNum g => g
              end.
Proof.
  unfold sortKey, or_default.
  destruct (Fixture.event f) as [| |[| |]]; done.
Qed.

Lemma compareEvent_sortKey (a b : Fixture.t) :
  compareEvent a b = sortKey a - sortKey b.
Proof. done. Qed.

(** C2, as the code has it.  The chain keeps the fixtures in which the
    team is at home or away, in their original order; it sorts them
    ascending by the key [event || 999], which is the gameweek number when
    there is one other than zero, and 999 when the gameweek is unset or
    zero; fixtures with equal keys keep their relative order; the first
    five of the sorted array are reported. *)
Theorem selector_filters_sorts_stably_takes_five
    (teamId : JsNumber) (teamMap : gmap Z Team.t) (fixtures : loc)
    (w : World) (elements : list Fixture.t) :
  heap w !! fixtures = Some elements ->
  exists kept sorted,
    (teamFixtures teamId teamMap fixtures w).1
    = Returned (map (fixtureView teamId teamMap) (take 5 sorted))
    /\ kept = List.filter (plays teamId) elements
    /\ (forall f,
          plays teamId f = true
          <-> Int (Fixture.team_h f) = teamId
              \/ Int (Fixture.team_a f) = teamId)
    /\ sorted ≡ₚ kept
    /\ StronglySorted (key_le sortKey) sorted
    /\ (forall k,
          List.filter (has_key sortKey k) sorted
          = List.filter (has_key sortKey k) kept)
    /\ (forall f,
          sortKey f = match Fixture.event f with
                      | EventUndefined | EventNull | EventNum 0 => 999
                      | EventNum g => g
                      end).
Proof.
  intros Hl.
  exists (List.filter (plays teamId) elements),
    (sorted_copy compareEvent (List.filter (plays teamId) elements)).
  rewrite (teamFixtures_run _ _ _ _ elements) by done.
  repeat split.
  - apply plays_spec.
  - apply plays_spec.
  - apply sorted_copy_perm.
  - apply sorted_copy_ascending, compareEvent_sortKey.
  - intros k. apply sorted_copy_stable, compareEvent_sortKey.
  - apply sortKey_spec.
Qed.

Lemma selector_filters_sorts_stably_takes_five_witness :
  exists kept sorted,
    (teamFixtures (Int 1) (buildTeamMap sample_teams) 0%nat sample_world).1
    = Returned (map (fixtureView (Int 1) (buildTeamMap sample_teams))
                  (take 5 sorted))
    /\ kept = List.filter (plays (Int 1)) sample_fixtures
    /\ (forall f,
          plays (Int 1) f = true
          <-> Int (Fixture.team_h f) = Int 1 \/ Int (Fixture.team_a f) = Int 1)
    /\ sorted ≡ₚ kept
    /\ StronglySorted (key_le sortKey) sorted
    /\ (forall k,
          List.filter (has_key sortKey k) sorted
          = List.filter (has_key sortKey k) kept)
    /\ (forall f,
          sortKey f = match Fixture.event f with
                      | EventUndefined | EventNull | EventNum 0 => 999
                      | EventNum g => g
                      end).
Proof.
  apply (selector_filters_sorts_stably_takes_five (Int 1)
           (buildTeamMap sample_teams) 0%nat sample_world sample_fixtures).
  reflexivity.
Defined.

(** The gameweeks 3, 1, none, 2, 5, 4, 6 of the sample: the five lowest
    come back in ascending order. *)
Example selector_sample :
  Fixture.event <$> selectedFixtures (Int 1) sample_fixtures
  = [EventNum 1; EventNum 2; EventNum 3; EventNum 4; EventNum 5].
Proof. by vm_compute. Qed.

(** C2 as the specification words it fails with a gameweek 0: the code
    orders that fixture by 999, behind gameweek 1, where the gameweek
    number would put it in front.  It also fails with a gameweek above
    999: the fixture without a gameweek is then reported before a fixture
    that has one. *)
Lemma selector_gameweek_zero_counterexample :
  let zero := sample_fixture 201 (EventNum 0) 1 2 in
  let one := sample_fixture 202 (EventNum 1) 1 3 in
  let unset := sample_fixture 203 EventNull 1 2 in
  let late := sample_fixture 204 (EventNum 1000) 1 3 in
  let w fixtures :=
    {| cachedBootstrap := None; bootstrapTimestamp := 0;
       cachedFixtures := Some 0%nat; fixturesTimestamp := 0;
       heap := [fixtures]; requests := [] |} in
  (teamFixtures (Int 1) ∅ 0%nat (w [zero; one])).1
  = Returned (map (fixtureView (Int 1) ∅) [one; zero])
  /\ selectUpcoming_spec (Int 1) [zero; one] = [zero; one]
  /\ (teamFixtures (Int 1) ∅ 0%nat (w [one; zero])).1
     <> Returned (map (fixtureView (Int 1) ∅)
                    (selectUpcoming_spec (Int 1) [one; zero]))
  /\ (teamFixtures (Int 1) ∅ 0%nat (w [late; unset])).1
     = Returned (map (fixtureView (Int 1) ∅) [unset; late]).
Proof. vm_compute. repeat split; try done. Qed.

(** ** GET /api/team-fixtures/:teamId: the id guard *)

(** C5, as the code has it.  When [Number] of the path parameter is
    [NaN] (the parameter does not parse as a number) or zero, the handler
    replies 400 with an error field and leaves the world as it was, so
    no GET goes upstream.  No other parameter gets a 400: a negative id
    passes the guard and is looked up like any other id. *)
Theorem unparseable_or_zero_team_id_gets_400
    (parsedId : JsNumber) (now_b now_f : Z)
    (upstream_b : Fetched Bootstrap.t) (upstream_f : Fetched (list Fixture.t))
    (w : World) :
  let run :=
    team_fixtures_handler parsedId now_b now_f upstream_b upstream_f w in
  (parsedId = NaN \/ parsedId = Int 0 ->
   run = ({| status := 400; body := ErrorBody "Invalid team id" |}, w)
   /\ requests run.2 = requests w)
  /\ (status run.1 = 400 ->
      parsedId = NaN \/ parsedId = Int 0).
Proof.
  cbn zeta. split.
  - intros H%number_falsy_spec.
    by rewrite team_fixtures_handler_invalid.
  - intros Hs. apply number_falsy_spec.
    destruct (number_falsy parsedId) eqn:Hf; [done|].
    rewrite team_fixtures_handler_valid in Hs by done. cbn zeta in Hs.
    destruct (promise_all _ _ w) as [[[bootstrap fixtures]|e] w1]; [|done].
    destruct (array_find _ _); [|done].
    by destruct (heap w1 !! fixtures).
Qed.

Lemma unparseable_or_zero_team_id_gets_400_witness :
  team_fixtures_handler NaN 2000 2000 Rejected Rejected sample_world
  = ({| status := 400; body := ErrorBody "Invalid team id" |}, sample_world)
  /\ requests
       (team_fixtures_handler NaN 2000 2000 Rejected Rejected
          sample_world).2
     = requests sample_world.
Proof.
  apply (proj1 (unparseable_or_zero_team_id_gets_400 NaN 2000 2000
                  Rejected Rejected sample_world)).
  left. vm_compute. reflexivity.
Defined.

(** C5 as the specification words it fails for a negative id: for a
    parameter that parses to -3, a non-positive number, and with both
    caches empty the handler sends both GETs and then replies 404. *)
Lemma negative_team_id_counterexample :
  let run :=
    team_fixtures_handler (Int (-3)) 2000 2000
      (Responded 200 (Some sample_bootstrap))
      (Responded 200 (Some sample_fixtures)) initial_world in
  run.1 = {| status := 404; body := ErrorBody "Team not found" |}
  /\ requests initial_world = []
  /\ requests run.2 = [BOOTSTRAP_URL; FIXTURES_URL].
Proof. by vm_compute. Qed.

(** ** The Player Projector *)

(** C6.  [mapPlayer] is a function of its three arguments, defined for
    every raw player and every pair of tables, and it reads nothing
    else.  When no team of the table has the player's team id the view's
    team is "Unknown", and when no position type of the table has the
    player's type id the view's position is "UNK". *)
Theorem mapPlayer_defaults_when_absent
    (rawPlayer : RawPlayer.t) (teams : list Team.t)
    (elementsTypes : list ElementType.t) :
  (Forall (fun t => Team.id t <> RawPlayer.team rawPlayer) teams ->
   PlayerView.team (mapPlayer rawPlayer teams elementsTypes) = JStr "Unknown")
  /\ (Forall (fun et => ElementType.id et <> RawPlayer.element_type rawPlayer)
        elementsTypes ->
      PlayerView.position (mapPlayer rawPlayer teams elementsTypes)
      = JStr "UNK").
Proof.
  split; intros H; simpl.
  - assert (array_find (fun t => Team.id t =? RawPlayer.team rawPlayer) teams
            = None) as ->; [|done].
    apply array_find_none. eapply Forall_impl; [exact H|].
    intros t Ht. by apply Z.eqb_neq.
  - assert (array_find
              (fun et => ElementType.id et =? RawPlayer.element_type rawPlayer)
              elementsTypes = None) as ->; [|done].
    apply array_find_none. eapply Forall_impl; [exact H|].
    intros t Ht. by apply Z.eqb_neq.
Qed.

Lemma mapPlayer_defaults_when_absent_witness :
  PlayerView.team
    (mapPlayer (sample_player 30 "Loanee" 99 7) sample_teams
       sample_element_types) = JStr "Unknown"
  /\ PlayerView.position
       (mapPlayer (sample_player 30 "Loanee" 99 7) sample_teams
          sample_element_types) = JStr "UNK".
Proof.
  split.
  - apply (proj1 (mapPlayer_defaults_when_absent
                    (sample_player 30 "Loanee" 99 7) sample_teams
                    sample_element_types)).
    repeat constructor; simpl; lia.
  - apply (proj2 (mapPlayer_defaults_when_absent
                    (sample_player 30 "Loanee" 99 7) sample_teams
                    sample_element_types)).
    repeat constructor; simpl; lia.
Defined.

(** With the tables of the sample: a player of a listed team, and one
    whose team and type are not listed. *)
Example mapPlayer_sample :
  let known := mapPlayer (sample_player 10 "Saka" 1 3) sample_teams
                 sample_element_types in
  let unknown := mapPlayer (sample_player 30 "Loanee" 99 7) sample_teams
                   sample_element_types in
  (PlayerView.team known, PlayerView.position known)
  = (JStr "Arsenal", JStr "MID")
  /\ (PlayerView.team unknown, PlayerView.position unknown)
     = (JStr "Unknown", JStr "UNK")
  /\ Stats.expected_goals_conceded (PlayerView.stats unknown) = JUndefined.
Proof. by vm_compute. Qed.

(** ** GET /api/players and GET /api/player/:id *)

(** C7.  When [getBootstrapStatic] delivers a dataset, GET /api/players
    replies 200 with [{players, teams}]: [players] has one projected
    record for each upstream element, in upstream order, and [teams] has
    one [{id, name}] pair for each upstream team, in upstream order. *)
Theorem players_reply_lists_every_player_and_team
    (now : Z) (upstream : Fetched Bootstrap.t) (w w1 : World)
    (data : Bootstrap.t) :
  getBootstrapStatic now upstream w = (Returned data, w1) ->
  exists players teams,
    players_handler now upstream w
    = ({| status := 200; body := PlayersBody players teams |}, w1)
    /\ Forall2
         (fun p view =>
            view = mapPlayer p (default [] (Bootstrap.teams data))
                     (default [] (Bootstrap.element_types data)))
         (default [] (Bootstrap.elements data)) players
    /\ Forall2
         (fun t pair =>
            SimpleTeam.id pair = Team.id t
            /\ SimpleTeam.name pair = Team.name t)
         (default [] (Bootstrap.teams data)) teams
    /\ length players = length (default [] (Bootstrap.elements data))
    /\ length teams = length (default [] (Bootstrap.teams data)).
Proof.
  intros Hget. eexists _, _. split.
  - unfold players_handler, try_catch_500, mbind, Js_bind.
    rewrite Hget. reflexivity.
  - repeat split.
    + by apply Forall2_map_r_intro.
    + by apply Forall2_map_r_intro.
    + apply length_map.
    + apply length_map.
Qed.

Lemma players_reply_lists_every_player_and_team_witness :
  exists players teams,
    players_handler 2000 Rejected sample_world
    = ({| status := 200; body := PlayersBody players teams |}, sample_world)
    /\ Forall2
         (fun p view =>
            view = mapPlayer p (default [] (Bootstrap.teams sample_bootstrap))
                     (default [] (Bootstrap.element_types sample_bootstrap)))
         (default [] (Bootstrap.elements sample_bootstrap)) players
    /\ Forall2
         (fun t pair =>
            SimpleTeam.id pair = Team.id t
            /\ SimpleTeam.name pair = Team.name t)
         (default [] (Bootstrap.teams sample_bootstrap)) teams
    /\ length players
       = length (default [] (Bootstrap.elements sample_bootstrap))
    /\ length teams = length (default [] (Bootstrap.teams sample_bootstrap)).
Proof.
  apply (players_reply_lists_every_player_and_team 2000 Rejected sample_world
           sample_world sample_bootstrap).
  vm_compute. reflexivity.
Defined.

(** The dataset of the sample has three players and three teams. *)
Example players_sample :
  match body (players_handler 2000 Rejected sample_world).1 with
  | PlayersBody players teams =>
      PlayerView.id <$> players = [10; 20; 30]
      /\ teams = [SimpleTeam.mk 1 (JStr "Arsenal");
                  SimpleTeam.mk 2 (JStr "Aston Villa");
                  SimpleTeam.mk 3 (JStr "Bournemouth")]
  | _ => False
  end.
Proof. by vm_compute. Qed.

(** C8.  When [getBootstrapStatic] delivers a dataset, GET
    /api/player/:id compares the parsed id with the id of each element by
    [===].  If no element has that id the reply is 404 with an error
    field; otherwise it is 200 with the projection of the first element
    that has it. *)
Theorem player_reply_is_projection_or_404
    (parsedId : JsNumber) (now : Z) (upstream : Fetched Bootstrap.t)
    (w w1 : World) (data : Bootstrap.t) :
  getBootstrapStatic now upstream w = (Returned data, w1) ->
  let elements := default [] (Bootstrap.elements data) in
  (Forall (fun p => Int (RawPlayer.id p) <> parsedId) elements ->
   player_handler parsedId now upstream w
   = ({| status := 404; body := ErrorBody "Player not found" |}, w1))
  /\ (forall pre playerRaw post,
        elements = pre ++ playerRaw :: post ->
        Forall (fun p => Int (RawPlayer.id p) <> parsedId) pre ->
        Int (RawPlayer.id playerRaw) = parsedId ->
        player_handler parsedId now upstream w
        = ({| status := 200;
              body :=
                PlayerBody
                  (mapPlayer playerRaw (default [] (Bootstrap.teams data))
                     (default [] (Bootstrap.element_types data))) |}, w1)).
Proof.
  intros Hget elements. split.
  - intros Hnone.
    unfold player_handler, try_catch_500, mbind, Js_bind. rewrite Hget.
    assert (array_find
              (fun p => strict_eq_num (RawPlayer.id p) parsedId)
              (default [] (Bootstrap.elements data)) = None) as ->; [|done].
    apply array_find_none. eapply Forall_impl; [exact Hnone|].
    intros p Hp. by apply strict_eq_num_false.
  - intros pre playerRaw post Hsplit Hpre Hid.
    unfold player_handler, try_catch_500, mbind, Js_bind. rewrite Hget.
    assert (array_find
              (fun p => strict_eq_num (RawPlayer.id p) parsedId)
              (default [] (Bootstrap.elements data)) = Some playerRaw)
      as ->; [|done].
    apply array_find_some. exists pre, post. repeat split; [done| |].
    + eapply Forall_impl; [exact Hpre|].
      intros p Hp. by apply strict_eq_num_false.
    + by apply strict_eq_num_spec.
Qed.

Lemma player_reply_is_projection_or_404_witness :
  player_handler (Int 999999) 2000 Rejected sample_world
  = ({| status := 404; body := ErrorBody "Player not found" |}, sample_world)
  /\ player_handler (Int 20) 2000 Rejected sample_world
     = ({| status := 200;
           body :=
             PlayerBody
               (mapPlayer (sample_player 20 "Watkins" 2 4) sample_teams
                  sample_element_types) |}, sample_world).
Proof.
  split.
  - apply (proj1 (player_reply_is_projection_or_404 (Int 999999) 2000 Rejected
                    sample_world sample_world sample_bootstrap eq_refl)).
    repeat constructor; vm_compute; discriminate.
  - apply (proj2 (player_reply_is_projection_or_404 (Int 20) 2000 Rejected
                    sample_world sample_world sample_bootstrap eq_refl)
             [sample_player 10 "Saka" 1 3] (sample_player 20 "Watkins" 2 4)
             [sample_player 30 "Loanee" 99 7]).
    + reflexivity.
    + repeat constructor; vm_compute; discriminate.
    + vm_compute. reflexivity.
Defined.

(** ** The staleness caches *)

(** C3.  Both time-to-live constants are 60 seconds.  For either
    resource, a call made while the cache variable is set and less than
    the time to live has passed since its timestamp returns the cached
    payload and leaves the world as it was: no GET goes upstream.
    Consequently, of two successive calls of which the second falls in
    that window of the entry the first one left, only the first can have
    sent a GET. *)
Theorem fresh_entry_is_served_without_fetch
    (now now' : Z) (upstream_b upstream_b' : Fetched Bootstrap.t)
    (upstream_f upstream_f' : Fetched (list Fixture.t)) (w : World) :
  BOOTSTRAP_CACHE_MS = 60000 /\ FIXTURES_CACHE_MS = 60000
  /\ (forall data,
        cachedBootstrap w = Some data ->
        now - bootstrapTimestamp w < BOOTSTRAP_CACHE_MS ->
        getBootstrapStatic now upstream_b w = (Returned data, w))
  /\ (forall data,
        cachedFixtures w = Some data ->
        now - fixturesTimestamp w < FIXTURES_CACHE_MS ->
        getFixtures now upstream_f w = (Returned data, w))
  /\ (let w1 := (getBootstrapStatic now upstream_b w).2 in
      let w2 := (getBootstrapStatic now' upstream_b' w1).2 in
      bootstrap_fresh now' w1 ->
      requests w2 = requests w1
      /\ (length (requests w2) <= length (requests w) + 1)%nat)
  /\ (let w1 := (getFixtures now upstream_f w).2 in
      let w2 := (getFixtures now' upstream_f' w1).2 in
      fixtures_fresh now' w1 ->
      requests w2 = requests w1
      /\ (length (requests w2) <= length (requests w) + 1)%nat).
Proof.
  split; [done|]. split; [done|].
  split; [intros; by apply getBootstrapStatic_hit|].
  split; [intros; by apply getFixtures_hit|].
  split.
  - intros w1 w2 [[data Hdata] Ht]. subst w2.
    rewrite (getBootstrapStatic_hit _ _ _ data) by done.
    split; [done|]. simpl. subst w1.
    destruct (getBootstrapStatic_requests now upstream_b w) as [-> | ->];
      rewrite ?length_app; simpl; lia.
  - intros w1 w2 [[data Hdata] Ht]. subst w2.
    rewrite (getFixtures_hit _ _ _ data) by done.
    split; [done|]. simpl. subst w1.
    destruct (getFixtures_requests now upstream_f w) as [-> | ->];
      rewrite ?length_app; simpl; lia.
Qed.

(** A first call at time 70000 refreshes the stale sample; a second call
    at time 100000 is inside the window of the new entry. *)
Lemma fresh_entry_is_served_without_fetch_witness :
  getBootstrapStatic 2000 Rejected sample_world
  = (Returned sample_bootstrap, sample_world)
  /\ getFixtures 2000 Rejected sample_world = (Returned 0%nat, sample_world)
  /\ (let w1 :=
        (getBootstrapStatic 70000 (Responded 200 (Some sample_bootstrap))
           sample_world).2 in
      let w2 := (getBootstrapStatic 100000 Rejected w1).2 in
      requests w2 = requests w1
      /\ (length (requests w2) <= length (requests sample_world) + 1)%nat)
  /\ (let w1 :=
        (getFixtures 70000 (Responded 200 (Some sample_fixtures))
           sample_world).2 in
      let w2 := (getFixtures 100000 Rejected w1).2 in
      requests w2 = requests w1
      /\ (length (requests w2) <= length (requests sample_world) + 1)%nat).
Proof.
  pose proof (fresh_entry_is_served_without_fetch 2000 2000 Rejected Rejected
                Rejected Rejected sample_world)
    as (_ & _ & Hb & Hf & _ & _).
  pose proof (fresh_entry_is_served_without_fetch 70000 100000
                (Responded 200 (Some sample_bootstrap)) Rejected
                (Responded 200 (Some sample_fixtures)) Rejected sample_world)
    as (_ & _ & _ & _ & Hbb & Hff).
  split; [apply Hb; [reflexivity | vm_compute; reflexivity]|].
  split; [apply Hf; [reflexivity | vm_compute; reflexivity]|].
  split.
  - apply Hbb. split; [by eexists | vm_compute; reflexivity].
  - apply Hff. split; [by eexists | vm_compute; reflexivity].
Defined.

(** Two calls less than the time to live apart, the first of which
    delivers a payload, send at most one GET between them. *)
Lemma two_calls_one_fetch_bootstrap (now now' : Z)
    (upstream upstream' : Fetched Bootstrap.t) (w w1 : World)
    (data : Bootstrap.t) :
  getBootstrapStatic now upstream w = (Returned data, w1) ->
  now' - now < BOOTSTRAP_CACHE_MS ->
  (length (requests (getBootstrapStatic now' upstream' w1).2)
   <= length (requests w) + 1)%nat.
Proof.
  intros Hget Ht.
  destruct (bootstrap_fresh_dec now w) as [[[d Hd] Hfr]|Hn].
  - rewrite (getBootstrapStatic_hit _ _ _ d) in Hget by done.
    injection Hget as <- <-.
    destruct (getBootstrapStatic_requests now' upstream' w) as [-> | ->];
      rewrite ?length_app; simpl; lia.
  - rewrite getBootstrapStatic_miss in Hget by done.
    destruct upstream as [|st [d|]]; [done| |by destruct (ok _)].
    destruct (ok _); [|done]. injection Hget as <- <-.
    rewrite (getBootstrapStatic_hit _ _ _ d) by done.
    simpl. rewrite length_app. simpl. lia.
Qed.

Lemma two_calls_one_fetch_fixtures (now now' : Z)
    (upstream upstream' : Fetched (list Fixture.t)) (w w1 : World)
    (data : loc) :
  getFixtures now upstream w = (Returned data, w1) ->
  now' - now < FIXTURES_CACHE_MS ->
  (length (requests (getFixtures now' upstream' w1).2)
   <= length (requests w) + 1)%nat.
Proof.
  intros Hget Ht.
  destruct (fixtures_fresh_dec now w) as [[[d Hd] Hfr]|Hn].
  - rewrite (getFixtures_hit _ _ _ d) in Hget by done.
    injection Hget as <- <-.
    destruct (getFixtures_requests now' upstream' w) as [-> | ->];
      rewrite ?length_app; simpl; lia.
  - rewrite getFixtures_miss in Hget by done.
    destruct upstream as [|st [d|]]; [done| |by destruct (ok _)].
    destruct (ok _); [|done]. injection Hget as <- <-.
    rewrite (getFixtures_hit _ _ _ (length (heap w))) by done.
    simpl. rewrite length_app. simpl. lia.
Qed.

(** Without a successful refresh there is no entry and so no window:
    after a failed first call a second call sends its own GET. *)
Example failed_call_is_followed_by_a_second_fetch :
  let w1 := (getBootstrapStatic 2000 Rejected initial_world).2 in
  let w2 := (getBootstrapStatic 2001 Rejected w1).2 in
  requests w2 = [BOOTSTRAP_URL; BOOTSTRAP_URL].
Proof. by vm_compute. Qed.

(** C4.  For either resource, when the entry is not fresh, so that a
    refresh is attempted, and the fetch fails (a transport error, or a
    status outside 200..299), the call throws and the only change to the
    world is the record of the GET: the cached payload and its timestamp
    are what they were.  The error of a bad status carries that status. *)
Theorem failed_refresh_keeps_the_entry
    (now : Z) (upstream_b : Fetched Bootstrap.t)
    (upstream_f : Fetched (list Fixture.t)) (w : World) :
  (~ bootstrap_fresh now w -> failed upstream_b ->
   exists e,
     getBootstrapStatic now upstream_b w
     = (Thrown e, log_request BOOTSTRAP_URL w)
     /\ e = match upstream_b with
            | Rejected => FetchError
            | Responded st _ => ApiError "FPL bootstrap API error: " st
            end
     /\ cachedBootstrap (log_request BOOTSTRAP_URL w) = cachedBootstrap w
     /\ bootstrapTimestamp (log_request BOOTSTRAP_URL w)
        = bootstrapTimestamp w)
  /\ (~ fixtures_fresh now w -> failed upstream_f ->
      exists e,
        getFixtures now upstream_f w = (Thrown e, log_request FIXTURES_URL w)
        /\ e = match upstream_f with
               | Rejected => FetchError
               | Responded st _ => ApiError "FPL fixtures API error: " st
               end
        /\ cachedFixtures (log_request FIXTURES_URL w) = cachedFixtures w
        /\ fixturesTimestamp (log_request FIXTURES_URL w)
           = fixturesTimestamp w
        /\ heap (log_request FIXTURES_URL w) = heap w).
Proof.
  split.
  - intros Hn Hfail. rewrite getBootstrapStatic_miss by done.
    destruct upstream_b as [|st [data|]]; simpl in Hfail.
    + by eexists.
    + rewrite Hfail. by eexists.
    + unfold ok in *. simpl in *. rewrite Hfail. by eexists.
  - intros Hn Hfail. rewrite getFixtures_miss by done.
    destruct upstream_f as [|st [data|]]; simpl in Hfail.
    + by eexists.
    + rewrite Hfail. by eexists.
    + unfold ok in *. simpl in *. rewrite Hfail. by eexists.
Qed.

(** The stale sample at time 70000, with upstream answering 503. *)
Lemma failed_refresh_keeps_the_entry_witness :
  getBootstrapStatic 70000 (Responded 503 None) sample_world
  = (Thrown (ApiError "FPL bootstrap API error: " 503),
     log_request BOOTSTRAP_URL sample_world)
  /\ cachedBootstrap (log_request BOOTSTRAP_URL sample_world)
     = Some sample_bootstrap
  /\ getFixtures 70000 Rejected sample_world
     = (Thrown FetchError, log_request FIXTURES_URL sample_world)
  /\ cachedFixturesPayload (log_request FIXTURES_URL sample_world)
     = Some sample_fixtures.
Proof.
  destruct (failed_refresh_keeps_the_entry 70000 (Responded 503 None)
              Rejected sample_world) as [Hb Hf].
  destruct Hb as (e & Hrun & -> & Hc & _).
  { intros [_ Ht]. vm_compute in Ht. discriminate. }
  { reflexivity. }
  destruct Hf as (e' & Hrun' & -> & Hc' & _).
  { intros [_ Ht]. vm_compute in Ht. discriminate. }
  { exact I. }
  split; [exact Hrun|]. split; [exact Hc|]. split; [exact Hrun'|].
  reflexivity.
Defined.

(** ** GET /api/team-fixtures/:teamId: the caches are only read *)

(** After its two getters the handler either stops, or appends new
    arrays to the heap behind the array it reads. *)
Lemma team_fixtures_handler_after_getters
    (parsedId : JsNumber) (now_b now_f : Z)
    (upstream_b : Fetched Bootstrap.t) (upstream_f : Fetched (list Fixture.t))
    (w : World) :
  let w1 := (promise_all (getBootstrapStatic now_b upstream_b)
               (getFixtures now_f upstream_f) w).2 in
  let w' := (team_fixtures_handler parsedId now_b now_f upstream_b
               upstream_f w).2 in
  w' = w \/ w' = w1
  \/ exists fixtures elements extra,
       cachedFixtures w1 = Some fixtures
       /\ heap w1 !! fixtures = Some elements
       /\ w' = set_heap (heap w1 ++ extra) w1.
Proof.
  cbn zeta.
  destruct (number_falsy parsedId) eqn:Hf.
  { left. by rewrite team_fixtures_handler_invalid. }
  right. rewrite team_fixtures_handler_valid by done. cbn zeta.
  pose proof (getters_outcome now_b now_f upstream_b upstream_f w)
    as (_ & _ & Hret).
  destruct (promise_all _ _ w) as [[[bootstrap fixtures]|e] w1];
    [|by left].
  destruct (Hret bootstrap fixtures eq_refl) as [_ Hcf]. simpl in Hcf.
  destruct (array_find _ _); [|by left].
  destruct (heap w1 !! fixtures) as [elements|] eqn:Hl; [|by left].
  right. by eexists fixtures, elements, _.
Qed.

(** C9.  Handling GET /api/team-fixtures/:teamId modifies no array that
    existed before the request, the cached fixtures array included: the
    in-place sort works on the new array that the filter built.  After
    the request each cache holds the payload it held before, or, when a
    getter refreshed it, exactly the payload upstream delivered, the
    fixtures in upstream order. *)
Theorem team_fixtures_handler_leaves_cached_payloads
    (parsedId : JsNumber) (now_b now_f : Z)
    (upstream_b : Fetched Bootstrap.t) (upstream_f : Fetched (list Fixture.t))
    (w : World) :
  let w' := (team_fixtures_handler parsedId now_b now_f upstream_b
               upstream_f w).2 in
  (forall (l : loc) (a : list Fixture.t),
     heap w !! l = Some a -> heap w' !! l = Some a)
  /\ (cachedBootstrap w' = cachedBootstrap w
      \/ exists st data,
           upstream_b = Responded st (Some data)
           /\ cachedBootstrap w' = Some data)
  /\ (cachedFixturesPayload w' = cachedFixturesPayload w
      \/ exists st data,
           upstream_f = Responded st (Some data)
           /\ cachedFixturesPayload w' = Some data).
Proof.
  cbn zeta.
  pose proof (team_fixtures_handler_after_getters parsedId now_b now_f
                upstream_b upstream_f w) as Hw'.
  pose proof (getters_outcome now_b now_f upstream_b upstream_f w)
    as (Hb & Hf & _).
  cbn zeta in Hw', Hb, Hf.
  set (w1 := (promise_all _ _ w).2) in *.
  set (w' := (team_fixtures_handler _ _ _ _ _ w).2) in *.
  clearbody w1 w'.
  assert (forall (l : loc) (a : list Fixture.t),
            heap w !! l = Some a -> heap w1 !! l = Some a) as Hheap1.
  { intros l a Hl. destruct Hf as [[-> _]|(st & data & _ & -> & _)]; [done|].
    by apply lookup_app_l_Some. }
  assert (cachedFixturesPayload w1 = cachedFixturesPayload w
          \/ exists st data,
               upstream_f = Responded st (Some data)
               /\ cachedFixturesPayload w1 = Some data) as Hp1.
  { unfold cachedFixturesPayload.
    destruct Hf as [[-> ->]|(st & data & -> & -> & ->)]; [by left|].
    right. exists st, data. split; [done|].
    by rewrite lookup_app_r, Nat.sub_diag. }
  destruct Hw' as [-> | [-> | (fixtures & elements & extra & Hc & Hl & ->)]].
  - repeat split; [done | by left | by left].
  - done.
  - simpl. split; [|split; [done|]].
    + intros l a Ha. apply lookup_app_l_Some. by apply Hheap1.
    + assert (cachedFixturesPayload (set_heap (heap w1 ++ extra) w1)
              = cachedFixturesPayload w1) as ->; [|done].
      unfold cachedFixturesPayload. simpl. rewrite Hc, Hl.
      by apply lookup_app_l_Some.
Qed.

Lemma team_fixtures_handler_leaves_cached_payloads_witness :
  heap (team_fixtures_handler (Int 1) 2000 2000 Rejected Rejected
          sample_world).2
    !! 0%nat = Some sample_fixtures.
Proof.
  apply (proj1 (team_fixtures_handler_leaves_cached_payloads (Int 1) 2000 2000
                  Rejected Rejected sample_world)).
  reflexivity.
Defined.

(** The sample request leaves the cached array in upstream order, with
    the sorted copy and the slice behind it on the heap. *)
Example sample_request_keeps_cached_order :
  cachedFixturesPayload sample_team_fixtures_run.2 = Some sample_fixtures
  /\ length (heap sample_team_fixtures_run.2) = 3%nat.
Proof. by vm_compute. Qed.

(** Sorting the cached array itself would reorder the cache: the frame
    property rests on the filter in front of the sort. *)
Example sort_of_cached_array_reorders_cache :
  Fixture.id <$> default []
    (cachedFixturesPayload (array_sort compareEvent 0%nat sample_world).2)
  = [102; 105; 104; 101; 107; 106; 108; 103].
Proof. by vm_compute. Qed.


(** * Further properties of the code *)

(** ** The getters *)

Lemma getBootstrapStatic_stale_requests (now : Z)
    (upstream : Fetched Bootstrap.t) (w : World) :
  ~ bootstrap_fresh now w ->
  requests (getBootstrapStatic now upstream w).2
  = requests w ++ [BOOTSTRAP_URL].
Proof.
  intros Hn. rewrite getBootstrapStatic_miss by done.
  destruct upstream as [|st [d|]]; [done|..]; by destruct (ok _).
Qed.

Lemma getFixtures_stale_requests (now : Z)
    (upstream : Fetched (list Fixture.t)) (w : World) :
  ~ fixtures_fresh now w ->
  requests (getFixtures now upstream w).2 = requests w ++ [FIXTURES_URL].
Proof.
  intros Hn. rewrite getFixtures_miss by done.
  destruct upstream as [|st [d|]]; [done|..]; by destruct (ok _).
Qed.

(** X1.  A call that does not find its entry fresh sends exactly one
    GET, to its own URL, whatever upstream then does; this covers the
    first call of all and every call after the time to live has run
    out. *)
Theorem stale_call_sends_exactly_one_get
    (now : Z) (upstream_b : Fetched Bootstrap.t)
    (upstream_f : Fetched (list Fixture.t)) (w : World) :
  (~ bootstrap_fresh now w ->
   requests (getBootstrapStatic now upstream_b w).2
   = requests w ++ [BOOTSTRAP_URL])
  /\ (~ fixtures_fresh now w ->
      requests (getFixtures now upstream_f w).2
      = requests w ++ [FIXTURES_URL]).
Proof.
  split; intros Hn.
  - rewrite getBootstrapStatic_miss by done.
    destruct upstream_b as [|st [d|]]; [done|..]; by destruct (ok _).
  - rewrite getFixtures_miss by done.
    destruct upstream_f as [|st [d|]]; [done|..]; by destruct (ok _).
Qed.

Lemma stale_call_sends_exactly_one_get_witness :
  requests (getBootstrapStatic 70000 (Responded 503 None) sample_world).2
  = requests sample_world ++ [BOOTSTRAP_URL]
  /\ requests (getFixtures 0 Rejected initial_world).2
     = requests initial_world ++ [FIXTURES_URL].
Proof.
  split.
  - apply (proj1 (stale_call_sends_exactly_one_get 70000 (Responded 503 None)
                    Rejected sample_world)).
    intros [_ Ht]. vm_compute in Ht. discriminate.
  - apply (proj2 (stale_call_sends_exactly_one_get 0 (Responded 503 None)
                    Rejected initial_world)).
    intros [[l Hl] _]. discriminate.
Defined.





(** X4.  When the status is in 200..299 but [res.json()] rejects the
    body, the getter throws after the GET and stores nothing: payload,
    timestamp and heap are what they were. *)
Theorem unparseable_body_keeps_the_entry
    (now st : Z) (w : World) :
  200 <= st <= 299 ->
  (~ bootstrap_fresh now w ->
   getBootstrapStatic now (Responded st None) w
   = (Thrown InvalidJson, log_request BOOTSTRAP_URL w))
  /\ (~ fixtures_fresh now w ->
      getFixtures now (Responded st None) w
      = (Thrown InvalidJson, log_request FIXTURES_URL w))
  /\ cachedBootstrap (log_request BOOTSTRAP_URL w) = cachedBootstrap w
  /\ bootstrapTimestamp (log_request BOOTSTRAP_URL w) = bootstrapTimestamp w
  /\ cachedFixtures (log_request FIXTURES_URL w) = cachedFixtures w
  /\ fixturesTimestamp (log_request FIXTURES_URL w) = fixturesTimestamp w
  /\ heap (log_request FIXTURES_URL w) = heap w.
Proof.
  intros Hst.
  assert ((200 <=? st) && (st <=? 299) = true) as Hok.
  { apply andb_true_iff. split; apply Z.leb_le; lia. }
  repeat split.
  - intros Hn. rewrite getBootstrapStatic_miss by done.
    unfold ok. simpl. by rewrite Hok.
  - intros Hn. rewrite getFixtures_miss by done.
    unfold ok. simpl. by rewrite Hok.
Qed.

Lemma unparseable_body_keeps_the_entry_witness :
  getBootstrapStatic 70000 (Responded 200 None) sample_world
  = (Thrown InvalidJson, log_request BOOTSTRAP_URL sample_world)
  /\ getFixtures 70000 (Responded 200 None) sample_world
     = (Thrown InvalidJson, log_request FIXTURES_URL sample_world).
Proof.
  destruct (unparseable_body_keeps_the_entry 70000 200 sample_world
              ltac:(lia)) as (Hb & Hf & _).
  split.
  - apply Hb. intros [_ Ht]. vm_compute in Ht. discriminate.
  - apply Hf. intros [_ Ht]. vm_compute in Ht. discriminate.
Defined.

Lemma getBootstrapStatic_frame (now : Z) (upstream : Fetched Bootstrap.t)
    (w : World) :
  let wb := (getBootstrapStatic now upstream w).2 in
  cachedFixtures wb = cachedFixtures w
  /\ fixturesTimestamp wb = fixturesTimestamp w
  /\ heap wb = heap w.
Proof.
  cbn zeta. destruct (bootstrap_fresh_dec now w) as [[[d Hd] Ht]|Hn].
  - by rewrite (getBootstrapStatic_hit _ _ _ d).
  - rewrite getBootstrapStatic_miss by done.
    destruct upstream as [|st [d|]]; [done|..]; by destruct (ok _).
Qed.

Lemma getFixtures_frame (now : Z) (upstream : Fetched (list Fixture.t))
    (w : World) :
  let wf := (getFixtures now upstream w).2 in
  cachedBootstrap wf = cachedBootstrap w
  /\ bootstrapTimestamp wf = bootstrapTimestamp w
  /\ exists added, heap wf = heap w ++ added.
Proof.
  cbn zeta. destruct (fixtures_fresh_dec now w) as [[[d Hd] Ht]|Hn].
  - rewrite (getFixtures_hit _ _ _ d) by done. simpl.
    repeat split. exists []. by rewrite app_nil_r.
  - rewrite getFixtures_miss by done.
    destruct upstream as [|st [d|]]; [|destruct (ok _)..]; simpl;
      repeat split; try (exists []; by rewrite app_nil_r).
    by exists [d].
Qed.

Lemma getFixtures_after_bootstrap (now_b now_f : Z)
    (upstream_b : Fetched Bootstrap.t) (upstream_f : Fetched (list Fixture.t))
    (w : World) :
  (getFixtures now_f upstream_f (getBootstrapStatic now_b upstream_b w).2).1
  = (getFixtures now_f upstream_f w).1.
Proof.
  destruct (getBootstrapStatic_frame now_b upstream_b w) as (Hb1 & Hb2 & Hb3).
  cbn zeta in Hb1, Hb2, Hb3.
  set (wb := (getBootstrapStatic now_b upstream_b w).2) in *. clearbody wb.
  destruct (fixtures_fresh_dec now_f w) as [[[d Hd] Ht]|Hn].
  - rewrite (getFixtures_hit _ _ wb d), (getFixtures_hit _ _ w d);
      [done | done | done | congruence | congruence].
  - rewrite (getFixtures_miss _ _ wb), (getFixtures_miss _ _ w); [|done|].
    + destruct upstream_f as [|st [d|]]; [done|..];
        destruct (ok _); simpl; congruence.
    + unfold fixtures_fresh in *. by rewrite Hb1, Hb2.
Qed.

Lemma getBootstrapStatic_after_fixtures (now_b now_f : Z)
    (upstream_b : Fetched Bootstrap.t) (upstream_f : Fetched (list Fixture.t))
    (w : World) :
  (getBootstrapStatic now_b upstream_b (getFixtures now_f upstream_f w).2).1
  = (getBootstrapStatic now_b upstream_b w).1.
Proof.
  destruct (getFixtures_frame now_f upstream_f w) as (Hf1 & Hf2 & _).
  cbn zeta in Hf1, Hf2.
  set (wf := (getFixtures now_f upstream_f w).2) in *. clearbody wf.
  destruct (bootstrap_fresh_dec now_b w) as [[[d Hd] Ht]|Hn].
  - rewrite (getBootstrapStatic_hit _ _ wf d),
      (getBootstrapStatic_hit _ _ w d);
      [done | done | done | congruence | congruence].
  - rewrite (getBootstrapStatic_miss _ _ wf),
      (getBootstrapStatic_miss _ _ w); [|done|].
    + destruct upstream_b as [|st [d|]]; [done|..]; by destruct (ok _).
    + unfold bootstrap_fresh in *. by rewrite Hf1, Hf2.
Qed.

(** X5.  The two caches are independent.  [getBootstrapStatic] never
    touches the fixtures entry, its timestamp or the heap, and
    [getFixtures] never touches the bootstrap entry or its timestamp and
    only ever adds to the heap; so the result of either getter is the
    same whether or not the other one ran first. *)
Theorem getters_are_independent
    (now_b now_f : Z) (upstream_b : Fetched Bootstrap.t)
    (upstream_f : Fetched (list Fixture.t)) (w : World) :
  let wb := (getBootstrapStatic now_b upstream_b w).2 in
  let wf := (getFixtures now_f upstream_f w).2 in
  (cachedFixtures wb = cachedFixtures w
   /\ fixturesTimestamp wb = fixturesTimestamp w
   /\ heap wb = heap w)
  /\ (cachedBootstrap wf = cachedBootstrap w
      /\ bootstrapTimestamp wf = bootstrapTimestamp w
      /\ exists added, heap wf = heap w ++ added)
  /\ (getFixtures now_f upstream_f wb).1 = (getFixtures now_f upstream_f w).1
  /\ (getBootstrapStatic now_b upstream_b wf).1
     = (getBootstrapStatic now_b upstream_b w).1.
Proof.
  cbn zeta.
  split; [apply getBootstrapStatic_frame|].
  split; [apply getFixtures_frame|].
  split.
  - apply getFixtures_after_bootstrap.
  - apply getBootstrapStatic_after_fixtures.
Qed.

(** ** Well-formed worlds *)

Lemma getBootstrapStatic_wf (now : Z) (upstream : Fetched Bootstrap.t)
    (w : World) :
  wf_world w -> wf_world (getBootstrapStatic now upstream w).2.
Proof.
  intros Hwf.
  destruct (getBootstrapStatic_frame now upstream w) as (Hc & _ & Hh).
  cbn zeta in Hc, Hh.
  unfold wf_world in *. by rewrite Hc, Hh.
Qed.

Lemma getFixtures_wf (now : Z) (upstream : Fetched (list Fixture.t))
    (w : World) :
  wf_world w -> wf_world (getFixtures now upstream w).2.
Proof.
  intros Hwf.
  destruct (fixtures_fresh_dec now w) as [[[d Hd] Ht]|Hn].
  - by rewrite (getFixtures_hit _ _ _ d).
  - rewrite getFixtures_miss by done.
    destruct upstream as [|st [d|]]; [done| |by destruct (ok _)].
    destruct (ok _); [|done].
    unfold wf_world. simpl. rewrite length_app. simpl. lia.
Qed.

Lemma promise_all_getters_wf (now_b now_f : Z)
    (upstream_b : Fetched Bootstrap.t) (upstream_f : Fetched (list Fixture.t))
    (w : World) :
  wf_world w ->
  wf_world (promise_all (getBootstrapStatic now_b upstream_b)
              (getFixtures now_f upstream_f) w).2.
Proof.
  intros Hwf. unfold promise_all.
  pose proof (getBootstrapStatic_wf now_b upstream_b w Hwf) as H1.
  destruct (getBootstrapStatic now_b upstream_b w) as [a w1]. simpl in H1.
  pose proof (getFixtures_wf now_f upstream_f w1 H1) as H2.
  destruct (getFixtures now_f upstream_f w1) as [b w2]. simpl in H2.
  by destruct a, b.
Qed.

Lemma players_handler_world (now : Z) (upstream : Fetched Bootstrap.t)
    (w : World) :
  (players_handler now upstream w).2 = (getBootstrapStatic now upstream w).2.
Proof.
  unfold players_handler, try_catch_500, mbind, Js_bind.
  by destruct (getBootstrapStatic now upstream w) as [[data|e] w1].
Qed.

Lemma player_handler_world (parsedId : JsNumber) (now : Z)
    (upstream : Fetched Bootstrap.t) (w : World) :
  (player_handler parsedId now upstream w).2
  = (getBootstrapStatic now upstream w).2.
Proof.
  unfold player_handler, try_catch_500, mbind, Js_bind.
  destruct (getBootstrapStatic now upstream w) as [[data|e] w1]; [|done].
  by destruct (array_find _ _).
Qed.

(** X6.  The reference in the fixtures cache always points into the
    heap: this holds when the module is loaded and every handler keeps
    it. *)
Theorem handlers_keep_the_world_well_formed
    (parsedId : JsNumber) (now_b now_f : Z) (upstream_b : Fetched Bootstrap.t)
    (upstream_f : Fetched (list Fixture.t)) (w : World) :
  wf_world initial_world
  /\ (wf_world w ->
      wf_world (players_handler now_b upstream_b w).2
      /\ wf_world (player_handler parsedId now_b upstream_b w).2
      /\ wf_world
           (team_fixtures_handler parsedId now_b now_f upstream_b upstream_f
              w).2).
Proof.
  split; [exact I|]. intros Hwf. repeat split.
  - rewrite players_handler_world. by apply getBootstrapStatic_wf.
  - rewrite player_handler_world. by apply getBootstrapStatic_wf.
  - pose proof (team_fixtures_handler_after_getters parsedId now_b now_f
                  upstream_b upstream_f w) as Hw'.
    pose proof (promise_all_getters_wf now_b now_f upstream_b upstream_f w Hwf)
      as Hwf1.
    cbn zeta in Hw'.
    destruct Hw' as [-> | [-> | (l & elements & extra & Hc & Hl & ->)]];
      [done..|].
    unfold wf_world in *. simpl. rewrite Hc in *.
    rewrite length_app. lia.
Qed.

Lemma handlers_keep_the_world_well_formed_witness :
  wf_world (players_handler 70000 Rejected sample_world).2
  /\ wf_world (player_handler (Int 1) 70000 Rejected sample_world).2
  /\ wf_world
       (team_fixtures_handler (Int 1) 70000 70000 Rejected
          (Responded 200 (Some sample_fixtures)) sample_world).2.
Proof.
  apply (proj2 (handlers_keep_the_world_well_formed (Int 1) 70000 70000 Rejected
                  (Responded 200 (Some sample_fixtures)) sample_world)).
  vm_compute. reflexivity.
Defined.

(** ** The handlers: failures and statuses *)

(** X7.  When [getBootstrapStatic] throws, GET /api/players and GET
    /api/player/:id reply 500 with their fixed error text: nothing of
    the exception (the upstream status, the cause) reaches the reply. *)
Theorem player_endpoints_reply_500_on_failure
    (parsedId : JsNumber) (now : Z) (upstream : Fetched Bootstrap.t)
    (w w1 : World) (e : Exn) :
  getBootstrapStatic now upstream w = (Thrown e, w1) ->
  players_handler now upstream w
  = ({| status := 500; body := ErrorBody "Failed to fetch FPL data" |}, w1)
  /\ player_handler parsedId now upstream w
     = ({| status := 500; body := ErrorBody "Failed to fetch player" |}, w1).
Proof.
  intros Hget.
  unfold players_handler, player_handler, try_catch_500, mbind, Js_bind.
  by rewrite Hget.
Qed.

Lemma player_endpoints_reply_500_on_failure_witness :
  players_handler 70000 (Responded 503 None) sample_world
  = ({| status := 500; body := ErrorBody "Failed to fetch FPL data" |},
     log_request BOOTSTRAP_URL sample_world)
  /\ player_handler (Int 10) 70000 (Responded 503 None) sample_world
     = ({| status := 500; body := ErrorBody "Failed to fetch player" |},
        log_request BOOTSTRAP_URL sample_world).
Proof.
  apply (player_endpoints_reply_500_on_failure (Int 10) 70000 (Responded 503 None)
           sample_world (log_request BOOTSTRAP_URL sample_world)
           (ApiError "FPL bootstrap API error: " 503)).
  vm_compute. reflexivity.
Defined.

(** The result of each getter inside [Promise.all] is its result from
    the world the handler started in. *)
Lemma promise_all_getters_results (now_b now_f : Z)
    (upstream_b : Fetched Bootstrap.t) (upstream_f : Fetched (list Fixture.t))
    (w : World) :
  (promise_all (getBootstrapStatic now_b upstream_b)
     (getFixtures now_f upstream_f) w).1
  = match (getBootstrapStatic now_b upstream_b w).1,
          (getFixtures now_f upstream_f w).1 with
    | Returned x, Returned y => Returned (x, y)
    | Thrown e, _ => Thrown e
    | Returned _, Thrown e => Thrown e
    end.
Proof.
  pose proof (getFixtures_after_bootstrap now_b now_f upstream_b upstream_f w)
    as Hres.
  unfold promise_all. rewrite <- Hres.
  destruct (getBootstrapStatic now_b upstream_b w) as [a w1]. simpl.
  destruct (getFixtures now_f upstream_f w1) as [b w2]. simpl.
  by destruct a, b.
Qed.

(** X8.  The status of GET /api/team-fixtures/:teamId when the id
    passes the guard, in a well-formed world and for payloads of the
    shape the records give them (a dataset whose keys hold arrays, an
    array of fixtures).  It is 500 when one of the two getters throws,
    404 when both deliver and no team of the dataset has the id, and 200
    when both deliver and some team has it; the outcome of each getter
    is the one it has from the world the request started in. *)
Theorem team_fixtures_status
    (parsedId : JsNumber) (now_b now_f : Z)
    (upstream_b : Fetched Bootstrap.t) (upstream_f : Fetched (list Fixture.t))
    (w : World) :
  wf_world w ->
  number_falsy parsedId = false ->
  let reply :=
    (team_fixtures_handler parsedId now_b now_f upstream_b upstream_f w).1
  in
  let rb := (getBootstrapStatic now_b upstream_b w).1 in
  let rf := (getFixtures now_f upstream_f w).1 in
  let known bootstrap :=
    Exists (fun t => Int (Team.id t) = parsedId)
      (default [] (Bootstrap.teams bootstrap)) in
  ((exists e, rb = Thrown e) \/ (exists e, rf = Thrown e) ->
   status reply = 500)
  /\ (forall bootstrap fixtures,
        rb = Returned bootstrap -> rf = Returned fixtures ->
        ~ known bootstrap -> status reply = 404)
  /\ (forall bootstrap fixtures,
        rb = Returned bootstrap -> rf = Returned fixtures ->
        known bootstrap -> status reply = 200).
Proof.
  intros Hwf Hvalid. cbn zeta.
  rewrite team_fixtures_handler_valid by done. cbn zeta.
  pose proof (promise_all_getters_results now_b now_f upstream_b upstream_f w)
    as Hres.
  pose proof (promise_all_getters_wf now_b now_f upstream_b upstream_f w Hwf)
    as Hwf1.
  pose proof (getters_outcome now_b now_f upstream_b upstream_f w)
    as (_ & _ & Hret).
  cbn zeta in Hret.
  destruct (promise_all _ _ w) as [r w1]. simpl in Hres, Hwf1, Hret.
  destruct ((getBootstrapStatic now_b upstream_b w).1) as [b|eb];
    [destruct ((getFixtures now_f upstream_f w).1) as [l|ef]|]; subst r.
  2: { split; [done|]. split; intros b' l' _ [=]. }
  2: { split; [done|]. split; intros b' l' [=]. }
  destruct (Hret b l eq_refl) as [_ Hcf].
  assert (is_Some (heap w1 !! l)) as [elements Hl].
  { apply lookup_lt_is_Some. unfold wf_world in Hwf1. by rewrite Hcf in Hwf1. }
  rewrite Hl.
  destruct (array_find _ _) as [team|] eqn:Hfind; simpl.
  - split; [by intros [[e [=]]|[e [=]]]|]. split; [|done].
    intros b' l' [= <-] _ Hno. destruct Hno.
    apply array_find_some in Hfind as (pre & post & -> & _ & Ht).
    apply Exists_app. right. apply Exists_cons. left.
    by apply strict_eq_num_spec.
  - split; [by intros [[e [=]]|[e [=]]]|]. split; [done|].
    intros b' l' [= <-] _ Hex.
    apply array_find_none in Hfind.
    apply Exists_exists in Hex as (t & Hin & Ht).
    rewrite Forall_forall in Hfind. specialize (Hfind t Hin).
    by apply strict_eq_num_false in Hfind.
Qed.

Lemma team_fixtures_status_witness :
  status (team_fixtures_handler (Int 2) 2000 2000 Rejected Rejected
            sample_world).1 = 200
  /\ status (team_fixtures_handler (Int 7) 2000 2000 Rejected Rejected
               sample_world).1 = 404
  /\ status (team_fixtures_handler (Int 2) 2000 70000 Rejected Rejected
               sample_world).1 = 500.
Proof.
  split; [|split].
  - apply (proj2 (proj2 (team_fixtures_status (Int 2) 2000 2000 Rejected
                           Rejected sample_world
                           ltac:(vm_compute; reflexivity) eq_refl))
             sample_bootstrap 0%nat eq_refl eq_refl).
    apply Exists_cons. right. apply Exists_cons. left. reflexivity.
  - apply (proj1 (proj2 (team_fixtures_status (Int 7) 2000 2000 Rejected
                           Rejected sample_world
                           ltac:(vm_compute; reflexivity) eq_refl))
             sample_bootstrap 0%nat eq_refl eq_refl).
    intros Hex. apply Exists_exists in Hex as (t & Hin & Ht).
    repeat (apply elem_of_cons in Hin as [->|Hin]; [discriminate|]).
    by apply elem_of_nil in Hin.
  - apply (proj1 (team_fixtures_status (Int 2) 2000 70000 Rejected Rejected
                    sample_world ltac:(vm_compute; reflexivity) eq_refl)).
    right. by eexists.
Defined.

Lemma promise_all_world {A B : Type} (p : Js A) (q : Js B) (w : World) :
  (promise_all p q w).2 = (q (p w).2).2.
Proof.
  unfold promise_all. destruct (p w) as [a w1]. simpl.
  destruct (q w1) as [b w2]. by destruct a, b.
Qed.

(** Past the guard, the handler adds to the heap and touches nothing
    else of what the getters left. *)
Lemma team_fixtures_handler_world_valid
    (parsedId : JsNumber) (now_b now_f : Z)
    (upstream_b : Fetched Bootstrap.t) (upstream_f : Fetched (list Fixture.t))
    (w : World) :
  number_falsy parsedId = false ->
  let w1 := (getFixtures now_f upstream_f
               (getBootstrapStatic now_b upstream_b w).2).2 in
  let w' :=
    (team_fixtures_handler parsedId now_b now_f upstream_b upstream_f w).2
  in
  requests w' = requests w1
  /\ fixturesTimestamp w' = fixturesTimestamp w1
  /\ cachedFixtures w' = cachedFixtures w1
  /\ exists added, heap w' = heap w1 ++ added.
Proof.
  intros Hvalid. cbn zeta.
  rewrite <- promise_all_world.
  rewrite team_fixtures_handler_valid by done. cbn zeta.
  destruct (promise_all _ _ w) as [[[b l]|e] w1]; simpl.
  2: { repeat split. exists []. by rewrite app_nil_r. }
  destruct (array_find _ _); simpl.
  2: { repeat split. exists []. by rewrite app_nil_r. }
  destruct (heap w1 !! l); simpl.
  2: { repeat split. exists []. by rewrite app_nil_r. }
  repeat split. by eexists.
Qed.

(** X9.  The GETs of one GET /api/team-fixtures/:teamId whose id passes
    the guard: one to the bootstrap URL when that entry is not fresh,
    then one to the fixtures URL when that entry is not fresh, and no
    other.  Both getters run whatever the other does, so the fixtures
    entry is refreshed even when the bootstrap fetch fails and the reply
    is 500. *)
Theorem team_fixtures_requests
    (parsedId : JsNumber) (now_b now_f : Z)
    (upstream_b : Fetched Bootstrap.t) (upstream_f : Fetched (list Fixture.t))
    (w : World) :
  number_falsy parsedId = false ->
  let w' :=
    (team_fixtures_handler parsedId now_b now_f upstream_b upstream_f w).2
  in
  (exists sent_b sent_f,
     requests w' = requests w ++ sent_b ++ sent_f
     /\ (bootstrap_fresh now_b w -> sent_b = [])
     /\ (~ bootstrap_fresh now_b w -> sent_b = [BOOTSTRAP_URL])
     /\ (fixtures_fresh now_f w -> sent_f = [])
     /\ (~ fixtures_fresh now_f w -> sent_f = [FIXTURES_URL]))
  /\ (forall st parsed,
        ~ fixtures_fresh now_f w ->
        upstream_f = Responded st (Some parsed) ->
        ok (st, Some parsed) = true ->
        cachedFixturesPayload w' = Some parsed
        /\ fixturesTimestamp w' = now_f).
Proof.
  intros Hvalid. cbn zeta.
  destruct (team_fixtures_handler_world_valid parsedId now_b now_f
              upstream_b upstream_f w Hvalid)
    as (Hreq & Hts & Hcf & added & Hheap).
  pose proof (getBootstrapStatic_frame now_b upstream_b w)
    as (Hcfb & Htfb & Hhb).
  cbn zeta in Hcfb, Htfb, Hhb.
  set (wb := (getBootstrapStatic now_b upstream_b w).2) in *.
  assert (fixtures_fresh now_f wb <-> fixtures_fresh now_f w) as Hiff.
  { unfold fixtures_fresh. by rewrite Hcfb, Htfb. }
  assert (exists sent_b,
            requests wb = requests w ++ sent_b
            /\ (bootstrap_fresh now_b w -> sent_b = [])
            /\ (~ bootstrap_fresh now_b w -> sent_b = [BOOTSTRAP_URL]))
    as (sent_b & Hrb & Hb1 & Hb2).
  { subst wb. destruct (bootstrap_fresh_dec now_b w) as [Hb|Hb].
    - exists []. destruct Hb as [[d Hd] Ht].
      rewrite (getBootstrapStatic_hit _ _ _ d) by done. simpl.
      rewrite app_nil_r. split; [done|]. split; [done|].
      intros Hn. destruct Hn. by split; [eexists|].
    - exists [BOOTSTRAP_URL]. split; [|by split].
      by apply getBootstrapStatic_stale_requests. }
  clearbody wb.
  assert (exists sent_f,
            requests (getFixtures now_f upstream_f wb).2
            = requests wb ++ sent_f
            /\ (fixtures_fresh now_f w -> sent_f = [])
            /\ (~ fixtures_fresh now_f w -> sent_f = [FIXTURES_URL]))
    as (sent_f & Hrf & Hf1 & Hf2).
  { destruct (fixtures_fresh_dec now_f wb) as [Hf|Hf].
    - exists []. destruct Hf as [[d Hd] Ht].
      rewrite (getFixtures_hit _ _ _ d) by done. simpl.
      rewrite app_nil_r. split; [done|]. split; [done|].
      intros Hn. destruct Hn. apply Hiff. by split; [eexists|].
    - exists [FIXTURES_URL]. split; [|split; [|done]].
      + by apply getFixtures_stale_requests.
      + intros Hfr. destruct Hf. by apply Hiff. }
  split.
  - exists sent_b, sent_f.
    rewrite Hreq, Hrf, Hrb, <- app_assoc. by repeat split.
  - intros st parsed Hn -> Hok.
    rewrite Hts. unfold cachedFixturesPayload. rewrite Hcf, Hheap.
    rewrite getFixtures_miss, Hok by (by rewrite Hiff).
    simpl. split; [|done].
    apply lookup_app_l_Some. by rewrite lookup_app_r, Nat.sub_diag.
Qed.

(** The sample entries are stale at time 70000; bootstrap-static
    answers 503 and the fixtures arrive.  The reply is 500, both GETs
    were sent in order, and the fixtures entry is the new one. *)
Lemma team_fixtures_requests_witness :
  let run :=
    team_fixtures_handler (Int 1) 70000 70001 (Responded 503 None)
      (Responded 200 (Some [sample_fixture 301 (EventNum 9) 1 2]))
      sample_world in
  status run.1 = 500
  /\ (exists sent_b sent_f,
        requests run.2 = requests sample_world ++ sent_b ++ sent_f
        /\ sent_b = [BOOTSTRAP_URL] /\ sent_f = [FIXTURES_URL])
  /\ cachedFixturesPayload run.2 = Some [sample_fixture 301 (EventNum 9) 1 2]
  /\ fixturesTimestamp run.2 = 70001.
Proof.
  cbn zeta.
  destruct (team_fixtures_requests (Int 1) 70000 70001 (Responded 503 None)
              (Responded 200 (Some [sample_fixture 301 (EventNum 9) 1 2]))
              sample_world eq_refl)
    as ((sent_b & sent_f & Hreq & _ & Hb & _ & Hf) & Hstore).
  assert (~ bootstrap_fresh 70000 sample_world) as Hnb.
  { intros [_ Ht]. vm_compute in Ht. discriminate. }
  assert (~ fixtures_fresh 70001 sample_world) as Hnf.
  { intros [_ Ht]. vm_compute in Ht. discriminate. }
  split; [reflexivity|]. split.
  - exists sent_b, sent_f. split; [exact Hreq|]. split; [by apply Hb|by apply Hf].
  - by apply (Hstore 200 [sample_fixture 301 (EventNum 9) 1 2]).
Defined.

(** ** The Fixture Selector: what is reported and what is left out *)

Lemma selectedFixtures_split (teamId : JsNumber) (elements : list Fixture.t) :
  let sorted :=
    sorted_copy compareEvent (List.filter (plays teamId) elements) in
  selectedFixtures teamId elements ++ drop 5 sorted = sorted
  /\ sorted ≡ₚ List.filter (plays teamId) elements
  /\ StronglySorted (key_le sortKey) sorted.
Proof.
  cbn zeta. unfold selectedFixtures. split; [apply take_drop|]. split.
  - apply sorted_copy_perm.
  - apply sorted_copy_ascending, compareEvent_sortKey.
Qed.

Lemma selectedFixtures_elem_of (teamId : JsNumber) (elements : list Fixture.t)
    (f : Fixture.t) :
  f ∈ selectedFixtures teamId elements ->
  f ∈ elements /\ plays teamId f = true.
Proof.
  intros Hin.
  destruct (selectedFixtures_split teamId elements) as (Hsplit & Hperm & _).
  cbn zeta in Hsplit, Hperm.
  assert (f ∈ List.filter (plays teamId) elements) as Hf.
  { rewrite <- Hperm, <- Hsplit. apply elem_of_app. by left. }
  apply list_elem_of_In, filter_In in Hf as [Hf Hp].
  by rewrite list_elem_of_In.
Qed.

(** X10.  A 200 reply of GET /api/team-fixtures/:teamId reports five
    fixtures, or all fixtures of the team when the cached array has fewer
    than five; each reported fixture is an element of the cached array in
    which the team is the home or the away side. *)
Theorem reply_reports_up_to_five_fixtures_of_the_team
    (parsedId : JsNumber) (now_b now_f : Z)
    (upstream_b : Fetched Bootstrap.t) (upstream_f : Fetched (list Fixture.t))
    (w w' : World) (reply : Reply) (teamId : JsNumber) (name : JsVal)
    (views : list FixtureView.t) :
  team_fixtures_handler parsedId now_b now_f upstream_b upstream_f w
  = (reply, w') ->
  body reply = TeamFixturesBody teamId name views ->
  exists elements,
    cachedFixturesPayload w' = Some elements
    /\ length views
       = Nat.min 5 (length (List.filter (plays teamId) elements))
    /\ Forall2
         (fun f v =>
            f ∈ elements
            /\ (Int (Fixture.team_h f) = teamId
                \/ Int (Fixture.team_a f) = teamId)
            /\ FixtureView.kickoff_time v = Fixture.kickoff_time f)
         (selectedFixtures teamId elements) views.
Proof.
  intros Hrun Hbody.
  destruct (team_fixtures_handler_200 _ _ _ _ _ _ _ _ _ _ _ Hrun Hbody)
    as (bootstrap & team & elements & _ & _ & _ & _ & _ & _ & Hp & ->).
  exists elements. split; [done|]. split.
  - rewrite length_map. unfold selectedFixtures. rewrite length_take.
    by rewrite (Permutation_length (sorted_copy_perm compareEvent _)).
  - apply Forall2_same_length_lookup. split; [by rewrite length_map|].
    intros i f v Hf Hv. rewrite list_lookup_fmap, Hf in Hv.
    injection Hv as <-.
    destruct (selectedFixtures_elem_of teamId elements f) as [Hin Hplays].
    { by eapply list_elem_of_lookup_2. }
    repeat split; [done|]. by apply plays_spec.
Qed.

Lemma reply_reports_up_to_five_fixtures_of_the_team_witness :
  exists elements,
    cachedFixturesPayload sample_team_fixtures_run.2 = Some elements
    /\ length sample_views
       = Nat.min 5 (length (List.filter (plays (Int 1)) elements))
    /\ Forall2
         (fun f v =>
            f ∈ elements
            /\ (Int (Fixture.team_h f) = Int 1
                \/ Int (Fixture.team_a f) = Int 1)
            /\ FixtureView.kickoff_time v = Fixture.kickoff_time f)
         (selectedFixtures (Int 1) elements) sample_views.
Proof.
  apply (reply_reports_up_to_five_fixtures_of_the_team (Int 1) 2000 2000 Rejected
           Rejected sample_world sample_team_fixtures_run.2
           sample_team_fixtures_run.1 (Int 1) (JStr "Arsenal") sample_views);
    vm_compute; reflexivity.
Defined.

(** X11.  The fixtures of the team that a 200 reply leaves out are not
    ordered before any fixture it reports: every reported fixture has a
    sort key at most that of every fixture left out, and reported and
    left out together are the fixtures of the team. *)
Theorem reply_leaves_out_only_later_fixtures
    (parsedId : JsNumber) (now_b now_f : Z)
    (upstream_b : Fetched Bootstrap.t) (upstream_f : Fetched (list Fixture.t))
    (w w' : World) (reply : Reply) (teamId : JsNumber) (name : JsVal)
    (views : list FixtureView.t) :
  team_fixtures_handler parsedId now_b now_f upstream_b upstream_f w
  = (reply, w') ->
  body reply = TeamFixturesBody teamId name views ->
  exists elements left_out,
    cachedFixturesPayload w' = Some elements
    /\ FixtureView.gw <$> views
       = Fixture.event <$> selectedFixtures teamId elements
    /\ selectedFixtures teamId elements ++ left_out
       ≡ₚ List.filter (plays teamId) elements
    /\ (forall f g,
          f ∈ selectedFixtures teamId elements -> g ∈ left_out ->
          sortKey f <= sortKey g)
    /\ (left_out <> [] -> length views = 5%nat).
Proof.
  intros Hrun Hbody.
  destruct (team_fixtures_handler_200 _ _ _ _ _ _ _ _ _ _ _ Hrun Hbody)
    as (bootstrap & team & elements & _ & _ & _ & _ & _ & _ & Hp & ->).
  destruct (selectedFixtures_split teamId elements) as (Hsplit & Hperm & Hs).
  cbn zeta in Hsplit, Hperm, Hs.
  exists elements,
    (drop 5 (sorted_copy compareEvent (List.filter (plays teamId) elements))).
  split; [done|]. split.
  { rewrite <- list_fmap_compose. by apply list_fmap_ext. }
  split; [by rewrite Hsplit|]. split.
  - intros f g Hf Hg. rewrite <- Hsplit in Hs.
    by apply (StronglySorted_app_1_elem_of _ _ _ f g Hs).
  - intros Hne. rewrite length_map. unfold selectedFixtures.
    rewrite length_take.
    destruct (decide (length (sorted_copy compareEvent
                                (List.filter (plays teamId) elements)) <= 5)%nat)
      as [Hle|Hgt]; [|lia].
    destruct Hne. by apply drop_ge.
Qed.

Lemma reply_leaves_out_only_later_fixtures_witness :
  exists elements left_out,
    cachedFixturesPayload sample_team_fixtures_run.2 = Some elements
    /\ FixtureView.gw <$> sample_views
       = Fixture.event <$> selectedFixtures (Int 1) elements
    /\ selectedFixtures (Int 1) elements ++ left_out
       ≡ₚ List.filter (plays (Int 1)) elements
    /\ (forall f g,
          f ∈ selectedFixtures (Int 1) elements -> g ∈ left_out ->
          sortKey f <= sortKey g)
    /\ (left_out <> [] -> length sample_views = 5%nat).
Proof.
  apply (reply_leaves_out_only_later_fixtures (Int 1) 2000 2000 Rejected
           Rejected sample_world sample_team_fixtures_run.2
           sample_team_fixtures_run.1 (Int 1) (JStr "Arsenal") sample_views);
    vm_compute; reflexivity.
Defined.

(** X12.  When the fixtures of the team already come in ascending order
    of the sort key, as in a list that upstream sends by gameweek, the
    sort changes nothing: the chain reports the first five fixtures of
    the team in upstream order. *)
Theorem ordered_upstream_is_reported_in_upstream_order
    (teamId : JsNumber) (teamMap : gmap Z Team.t) (fixtures : loc)
    (w : World) (elements : list Fixture.t) :
  heap w !! fixtures = Some elements ->
  StronglySorted (key_le sortKey) (List.filter (plays teamId) elements) ->
  (teamFixtures teamId teamMap fixtures w).1
  = Returned (map (fixtureView teamId teamMap)
                (take 5 (List.filter (plays teamId) elements))).
Proof.
  intros Hl Hsorted.
  rewrite (teamFixtures_run _ _ _ _ elements) by done. simpl.
  unfold selectedFixtures.
  rewrite (stable_ascending_unique sortKey
             (sorted_copy compareEvent (List.filter (plays teamId) elements))
             (List.filter (plays teamId) elements)); [done| |done|].
  - apply sorted_copy_ascending, compareEvent_sortKey.
  - intros k. apply sorted_copy_stable, compareEvent_sortKey.
Qed.

Lemma ordered_upstream_is_reported_in_upstream_order_witness :
  let elements :=
    [sample_fixture 401 (EventNum 1) 1 2; sample_fixture 402 (EventNum 1) 2 3;
     sample_fixture 403 (EventNum 2) 3 1; sample_fixture 404 (EventNum 2) 1 3;
     sample_fixture 405 EventNull 2 1] in
  let w :=
    {| cachedBootstrap := None; bootstrapTimestamp := 0;
       cachedFixtures := Some 0%nat; fixturesTimestamp := 0;
       heap := [elements]; requests := [] |} in
  (teamFixtures (Int 1) ∅ 0%nat w).1
  = Returned (map (fixtureView (Int 1) ∅)
                (take 5 (List.filter (plays (Int 1)) elements))).
Proof.
  cbn zeta.
  apply (ordered_upstream_is_reported_in_upstream_order (Int 1) ∅ 0%nat).
  - reflexivity.
  - repeat constructor; vm_compute; by intros [=].
Defined.

(** ** The reported fields *)





(** With two teams of the same id, the opponent is read from the last
    one and the queried team's own name from the first one. *)
Example duplicate_team_ids_sample :
  let teams := [sample_team 1 "First" 1000; sample_team 1 "Second" 1200] in
  let w :=
    {| cachedBootstrap :=
         Some {| Bootstrap.elements := None; Bootstrap.teams := Some teams;
                 Bootstrap.element_types := None |};
       bootstrapTimestamp := 1000;
       cachedFixtures := Some 0%nat; fixturesTimestamp := 1000;
       heap := [[sample_fixture 501 (EventNum 1) 1 1]]; requests := [] |} in
  body (team_fixtures_handler (Int 1) 2000 2000 Rejected Rejected w).1
  = TeamFixturesBody (Int 1) (JStr "First")
      [{| FixtureView.gw := EventNum 1; FixtureView.is_home := true;
          FixtureView.opponent_team_id := 1;
          FixtureView.opponent_name := JStr "Second";
          FixtureView.difficulty := JNum 2;
          FixtureView.opponent_def_strength := JNum 1200;
          FixtureView.opponent_att_strength := JNum 1210;
          FixtureView.kickoff_time := JStr "2025-08-16T14:00:00Z" |}].
Proof. by vm_compute. Qed.

(** X14.  A 200 reply of GET /api/team-fixtures/:teamId carries as
    [team_id] the value of [Number] of the path parameter, which is an
    integer other than zero and the id of a team of the cached dataset;
    [team_name] is the name of the first team of the dataset with that
    id. *)
Theorem reply_names_the_first_team_with_the_id
    (parsedId : JsNumber) (now_b now_f : Z)
    (upstream_b : Fetched Bootstrap.t) (upstream_f : Fetched (list Fixture.t))
    (w w' : World) (reply : Reply) (teamId : JsNumber) (name : JsVal)
    (views : list FixtureView.t) :
  team_fixtures_handler parsedId now_b now_f upstream_b upstream_f w
  = (reply, w') ->
  body reply = TeamFixturesBody teamId name views ->
  exists z bootstrap pre team post,
    parsedId = Int z /\ z <> 0 /\ teamId = Int z
    /\ cachedBootstrap w' = Some bootstrap
    /\ default [] (Bootstrap.teams bootstrap) = pre ++ team :: post
    /\ Forall (fun t => Team.id t <> z) pre
    /\ Team.id team = z
    /\ name = Team.name team.
Proof.
  intros Hrun Hbody.
  destruct (team_fixtures_handler_200 _ _ _ _ _ _ _ _ _ _ _ Hrun Hbody)
    as (bootstrap & team & elements & -> & Hvalid & _ & Hb & Hfind & -> & _).
  apply array_find_some in Hfind as (pre & post & Hteams & Hpre & Hteam).
  apply strict_eq_num_spec in Hteam.
  exists (Team.id team), bootstrap, pre, team, post.
  rewrite <- Hteam in *. simpl in Hvalid. apply Z.eqb_neq in Hvalid.
  repeat split; try done.
  eapply Forall_impl; [exact Hpre|]. intros t Ht.
  apply strict_eq_num_false in Ht. congruence.
Qed.

Lemma reply_names_the_first_team_with_the_id_witness :
  exists z bootstrap pre team post,
    Int 1 = Int z /\ z <> 0 /\ Int 1 = Int z
    /\ cachedBootstrap sample_team_fixtures_run.2 = Some bootstrap
    /\ default [] (Bootstrap.teams bootstrap) = pre ++ team :: post
    /\ Forall (fun t => Team.id t <> z) pre
    /\ Team.id team = z
    /\ JStr "Arsenal" = Team.name team.
Proof.
  apply (reply_names_the_first_team_with_the_id (Int 1) 2000 2000 Rejected
           Rejected sample_world sample_team_fixtures_run.2
           sample_team_fixtures_run.1 (Int 1) (JStr "Arsenal") sample_views);
    vm_compute; reflexivity.
Defined.

(** ** The players endpoints *)

(** X15.  When the tables do hold the player's team and position type,
    [mapPlayer] takes the name of the first team, and the short name of
    the first position type, that carries the referenced id: a later
    entry with the same id is not read. *)
Theorem mapPlayer_reads_the_first_match
    (rawPlayer : RawPlayer.t) (teams : list Team.t)
    (elementsTypes : list ElementType.t) :
  (forall pre t post,
     teams = pre ++ t :: post ->
     Forall (fun t' => Team.id t' <> RawPlayer.team rawPlayer) pre ->
     Team.id t = RawPlayer.team rawPlayer ->
     PlayerView.team (mapPlayer rawPlayer teams elementsTypes) = Team.name t)
  /\ (forall pre et post,
        elementsTypes = pre ++ et :: post ->
        Forall
          (fun et' => ElementType.id et' <> RawPlayer.element_type rawPlayer)
          pre ->
        ElementType.id et = RawPlayer.element_type rawPlayer ->
        PlayerView.position (mapPlayer rawPlayer teams elementsTypes)
        = ElementType.singular_name_short et).
Proof.
  split.
  - intros pre t post Hl Hpre Ht. simpl.
    assert (array_find (fun t => Team.id t =? RawPlayer.team rawPlayer) teams
            = Some t) as ->; [|done].
    apply array_find_some. exists pre, post. split; [done|]. split.
    + eapply Forall_impl; [exact Hpre|]. intros t' Ht'. by apply Z.eqb_neq.
    + by apply Z.eqb_eq.
  - intros pre et post Hl Hpre Het. simpl.
    assert (array_find
              (fun et => ElementType.id et =? RawPlayer.element_type rawPlayer)
              elementsTypes = Some et) as ->; [|done].
    apply array_find_some. exists pre, post. split; [done|]. split.
    + eapply Forall_impl; [exact Hpre|]. intros t' Ht'. by apply Z.eqb_neq.
    + by apply Z.eqb_eq.
Qed.

Lemma mapPlayer_reads_the_first_match_witness :
  let teams := sample_teams ++ [sample_team 2 "Shadow" 900] in
  let view := mapPlayer (sample_player 20 "Watkins" 2 4) teams
                sample_element_types in
  PlayerView.team view = JStr "Aston Villa"
  /\ PlayerView.position view = JStr "FWD".
Proof.
  cbn zeta. split.
  - apply (proj1 (mapPlayer_reads_the_first_match
                    (sample_player 20 "Watkins" 2 4)
                    (sample_teams ++ [sample_team 2 "Shadow" 900])
                    sample_element_types)
             [sample_team 1 "Arsenal" 1300] (sample_team 2 "Aston Villa" 1100)
             [sample_team 3 "Bournemouth" 1000; sample_team 2 "Shadow" 900]).
    + reflexivity.
    + repeat constructor; simpl; lia.
    + reflexivity.
  - apply (proj2 (mapPlayer_reads_the_first_match
                    (sample_player 20 "Watkins" 2 4)
                    (sample_teams ++ [sample_team 2 "Shadow" 900])
                    sample_element_types)
             [ElementType.mk 1 (JStr "GKP"); ElementType.mk 2 (JStr "DEF");
              ElementType.mk 3 (JStr "MID")]
             (ElementType.mk 4 (JStr "FWD")) []).
    + reflexivity.
    + repeat constructor; simpl; lia.
    + reflexivity.
Defined.

Lemma player_handler_delivered (parsedId : JsNumber) (now : Z)
    (upstream : Fetched Bootstrap.t) (w w1 : World) (data : Bootstrap.t) :
  getBootstrapStatic now upstream w = (Returned data, w1) ->
  player_handler parsedId now upstream w
  = match array_find
            (fun p => strict_eq_num (RawPlayer.id p) parsedId)
            (default [] (Bootstrap.elements data)) with
    | None => ({| status := 404; body := ErrorBody "Player not found" |}, w1)
    | Some playerRaw =>
        ({| status := 200;
            body :=
              PlayerBody
                (mapPlayer playerRaw (default [] (Bootstrap.teams data))
                   (default [] (Bootstrap.element_types data))) |}, w1)
    end.
Proof.
  intros Hget. unfold player_handler, try_catch_500, mbind, Js_bind.
  rewrite Hget. by destruct (array_find _ _).
Qed.

(** X16.  GET /api/player/:id does not check its parameter: when the
    dataset is delivered and [Number] of the parameter is not an integer
    ([NaN], a fraction or an infinity), no element can match and the
    reply is 404, not 400. *)
Theorem player_reply_is_404_for_a_non_integer_id
    (parsedId : JsNumber) (now : Z) (upstream : Fetched Bootstrap.t)
    (w w1 : World) (data : Bootstrap.t) :
  getBootstrapStatic now upstream w = (Returned data, w1) ->
  parsedId = NaN \/ parsedId = NotInteger ->
  player_handler parsedId now upstream w
  = ({| status := 404; body := ErrorBody "Player not found" |}, w1).
Proof.
  intros Hget Hid. rewrite (player_handler_delivered _ _ _ _ w1 data Hget).
  assert (array_find
            (fun p => strict_eq_num (RawPlayer.id p) parsedId)
            (default [] (Bootstrap.elements data)) = None) as ->; [|done].
  apply array_find_none, Forall_forall. intros p _.
  by destruct Hid as [-> | ->].
Qed.

Lemma player_reply_is_404_for_a_non_integer_id_witness :
  player_handler NaN 2000 Rejected sample_world
  = ({| status := 404; body := ErrorBody "Player not found" |}, sample_world)
  /\ player_handler NotInteger 2000 Rejected sample_world
     = ({| status := 404; body := ErrorBody "Player not found" |},
        sample_world).
Proof.
  split.
  - apply (player_reply_is_404_for_a_non_integer_id NaN 2000 Rejected
             sample_world sample_world sample_bootstrap eq_refl).
    left. vm_compute. reflexivity.
  - apply (player_reply_is_404_for_a_non_integer_id NotInteger 2000 Rejected
             sample_world sample_world sample_bootstrap eq_refl).
    right. vm_compute. reflexivity.
Defined.

Lemma array_find_map {A B : Type} (p : B -> bool) (g : A -> B) (l : list A) :
  array_find p (map g l) = g <$> array_find (fun x => p (g x)) l.
Proof.
  induction l as [|x l IH]; [done|]. simpl. by destruct (p (g x)).
Qed.

(** X17.  The two players endpoints agree: from the same world and with
    the dataset delivered, GET /api/player/:id replies with the first
    record of the [players] list of GET /api/players whose id is
    [Number] of the parameter, and with 404 when that list has none. *)
Theorem player_reply_is_the_entry_of_the_players_list
    (parsedId : JsNumber) (now : Z) (upstream : Fetched Bootstrap.t)
    (w w1 : World) (data : Bootstrap.t) :
  getBootstrapStatic now upstream w = (Returned data, w1) ->
  exists players teams,
    players_handler now upstream w
    = ({| status := 200; body := PlayersBody players teams |}, w1)
    /\ player_handler parsedId now upstream w
       = match array_find
                 (fun v => strict_eq_num (PlayerView.id v) parsedId)
                 players with
         | Some view => ({| status := 200; body := PlayerBody view |}, w1)
         | None =>
             ({| status := 404; body := ErrorBody "Player not found" |}, w1)
         end.
Proof.
  intros Hget. eexists _, _. split.
  - unfold players_handler, try_catch_500, mbind, Js_bind.
    rewrite Hget. reflexivity.
  - rewrite (player_handler_delivered _ _ _ _ w1 data Hget).
    rewrite array_find_map. simpl.
    by destruct (array_find _ _).
Qed.

Lemma player_reply_is_the_entry_of_the_players_list_witness :
  exists players teams,
    players_handler 2000 Rejected sample_world
    = ({| status := 200; body := PlayersBody players teams |}, sample_world)
    /\ player_handler (Int 20) 2000 Rejected sample_world
       = match array_find
                 (fun v => strict_eq_num (PlayerView.id v) (Int 20))
                 players with
         | Some view =>
             ({| status := 200; body := PlayerBody view |}, sample_world)
         | None =>
             ({| status := 404; body := ErrorBody "Player not found" |},
              sample_world)
         end.
Proof.
  apply (player_reply_is_the_entry_of_the_players_list (Int 20) 2000 Rejected
           sample_world sample_world sample_bootstrap).
  vm_compute. reflexivity.
Defined.

(** ** The earlier server *)

(** The getter of the earlier server and the getter of [server.js] move
    in step: the same payload or both an exception, the same GET or
    none, and the same entry afterwards. *)
Lemma getBootstrapStatic_in_step (now : Z) (upstream : Fetched Bootstrap.t)
    (w0 : Part000.World) (w : World) :
  same_bootstrap_cache w0 w ->
  let r0 := Part000.getBootstrapStatic now upstream w0 in
  let r := getBootstrapStatic now upstream w in
  match r0.1, r.1 with
  | Returned d0, Returned d => d0 = d
  | Thrown _, Thrown _ => True
  | _, _ => False
  end
  /\ same_bootstrap_cache r0.2 r.2
  /\ exists sent,
       Part000.requests r0.2 = Part000.requests w0 ++ sent
       /\ requests r.2 = requests w ++ sent.
Proof.
  intros [Hc Ht]. cbn zeta.
  unfold Part000.getBootstrapStatic, getBootstrapStatic, same_bootstrap_cache.
  unfold Part000.get, get, Part000.fetch, fetch, Part000.json, json,
    Part000.throw, throw, Part000.set_cachedBootstrap, set_cachedBootstrap,
    mbind, mret, Part000.Js_bind, Js_bind, Part000.Js_ret, Js_ret.
  simpl. rewrite Hc, Ht.
  unfold Part000.CACHE_MS, BOOTSTRAP_CACHE_MS.
  destruct (cachedBootstrap w) as [d|] eqn:Hd;
    [destruct (now - bootstrapTimestamp w <? 60 * 1000) eqn:Hlt|].
  - simpl. repeat split; try done; try congruence.
    exists []. by rewrite !app_nil_r.
  - destruct upstream as [|st [data|]]; simpl;
      [|destruct (ok (st, Some data)) | destruct (ok (st, None))]; simpl;
      repeat split; try done; try congruence; by exists [BOOTSTRAP_URL].
  - destruct upstream as [|st [data|]]; simpl;
      [|destruct (ok (st, Some data)) | destruct (ok (st, None))]; simpl;
      repeat split; try done; try congruence; by exists [BOOTSTRAP_URL].
Qed.

(** X18.  [server.js] keeps the two player endpoints of the earlier
    server.  Started with the same bootstrap entry and timestamp, at the
    same time and with the same upstream, each endpoint gives the same
    reply in both, sends the same GET or none, and leaves the same entry
    and timestamp. *)
Theorem player_endpoints_agree_with_the_earlier_server
    (parsedId : JsNumber) (now : Z) (upstream : Fetched Bootstrap.t)
    (w0 : Part000.World) (w : World) :
  same_bootstrap_cache w0 w ->
  (let r0 := Part000.players_handler now upstream w0 in
   let r := players_handler now upstream w in
   r0.1 = r.1
   /\ same_bootstrap_cache r0.2 r.2
   /\ exists sent,
        Part000.requests r0.2 = Part000.requests w0 ++ sent
        /\ requests r.2 = requests w ++ sent)
  /\ (let r0 := Part000.player_handler parsedId now upstream w0 in
      let r := player_handler parsedId now upstream w in
      r0.1 = r.1
      /\ same_bootstrap_cache r0.2 r.2
      /\ exists sent,
           Part000.requests r0.2 = Part000.requests w0 ++ sent
           /\ requests r.2 = requests w ++ sent).
Proof.
  intros Hsame.
  pose proof (getBootstrapStatic_in_step now upstream w0 w Hsame) as Hstep.
  cbn zeta in Hstep |- *.
  unfold Part000.players_handler, players_handler, Part000.player_handler,
    player_handler, Part000.try_catch_500, try_catch_500.
  unfold mbind, Part000.Js_bind, Js_bind.
  destruct (Part000.getBootstrapStatic now upstream w0) as [[d0|e0] w0'],
    (getBootstrapStatic now upstream w) as [[d|e] w'];
    simpl in Hstep; destruct Hstep as (Hres & Hs & Hsent); try done.
  subst d0. split.
  - done.
  - destruct (array_find _ _); done.
Qed.

Lemma player_endpoints_agree_with_the_earlier_server_witness :
  (Part000.players_handler 70000 (Responded 200 (Some sample_bootstrap))
     sample_world_part000).1
  = (players_handler 70000 (Responded 200 (Some sample_bootstrap))
       sample_world).1
  /\ (Part000.player_handler (Int 20) 70000 (Responded 404 None)
        sample_world_part000).1
     = (player_handler (Int 20) 70000 (Responded 404 None) sample_world).1.
Proof.
  split.
  - apply (proj1 (player_endpoints_agree_with_the_earlier_server (Int 20) 70000
                    (Responded 200 (Some sample_bootstrap))
                    sample_world_part000 sample_world
                    ltac:(split; reflexivity))).
  - apply (proj2 (player_endpoints_agree_with_the_earlier_server (Int 20) 70000
                    (Responded 404 None) sample_world_part000 sample_world
                    ltac:(split; reflexivity))).
Defined.

(** ** Missing keys, and fresh caches *)

(** X19.  A dataset that lacks a key is read as if the key held an
    empty array.  Without [elements], GET /api/players lists no player
    and GET /api/player/:id replies 404 for every id; without [teams],
    the team list is empty and every player's team is "Unknown"; without
    [element_types], every player's position is "UNK". *)
Theorem missing_dataset_keys_are_empty_arrays
    (parsedId : JsNumber) (now : Z) (upstream : Fetched Bootstrap.t)
    (w w1 : World) (data : Bootstrap.t) :
  getBootstrapStatic now upstream w = (Returned data, w1) ->
  exists players teams,
    players_handler now upstream w
    = ({| status := 200; body := PlayersBody players teams |}, w1)
    /\ (Bootstrap.elements data = None ->
        players = []
        /\ player_handler parsedId now upstream w
           = ({| status := 404; body := ErrorBody "Player not found" |}, w1))
    /\ (Bootstrap.teams data = None ->
        teams = []
        /\ Forall (fun v => PlayerView.team v = JStr "Unknown") players)
    /\ (Bootstrap.element_types data = None ->
        Forall (fun v => PlayerView.position v = JStr "UNK") players).
Proof.
  intros Hget. eexists _, _. split.
  { unfold players_handler, try_catch_500, mbind, Js_bind.
    rewrite Hget. reflexivity. }
  split; [|split].
  - intros He. rewrite He. split; [done|].
    rewrite (player_handler_delivered _ _ _ _ w1 data Hget). by rewrite He.
  - intros Ht. rewrite Ht. split; [done|].
    apply Forall_forall. intros v (p & -> & _)%list_elem_of_fmap. done.
  - intros Ht. rewrite Ht.
    apply Forall_forall. intros v (p & -> & _)%list_elem_of_fmap. done.
Qed.

Lemma missing_dataset_keys_are_empty_arrays_witness :
  let data :=
    {| Bootstrap.elements := Some sample_players; Bootstrap.teams := None;
       Bootstrap.element_types := None |} in
  let run := players_handler 0 (Responded 200 (Some data)) initial_world in
  exists players teams,
    run = ({| status := 200; body := PlayersBody players teams |}, run.2)
    /\ teams = []
    /\ Forall (fun v => PlayerView.team v = JStr "Unknown") players
    /\ Forall (fun v => PlayerView.position v = JStr "UNK") players.
Proof.
  cbn zeta.
  destruct (missing_dataset_keys_are_empty_arrays (Int 10) 0
              (Responded 200
                 (Some {| Bootstrap.elements := Some sample_players;
                          Bootstrap.teams := None;
                          Bootstrap.element_types := None |}))
              initial_world _ _ eq_refl)
    as (players & teams & Hrun & _ & Hteams & Htypes).
  exists players, teams. split; [exact Hrun|].
  destruct (Hteams eq_refl) as [Hnil Hunknown].
  split; [exact Hnil|]. split; [exact Hunknown|]. exact (Htypes eq_refl).
Defined.

(** X20.  While both entries are fresh, GET /api/team-fixtures/:teamId
    is served from the caches alone: for an id that passes the guard, in
    a well-formed world with cached payloads of the shape the records
    give them, no GET is sent, the reply is 200 or 404 whatever upstream
    would have answered, and both entries and their timestamps stay as
    they are. *)
Theorem fresh_caches_serve_team_fixtures_without_upstream
    (parsedId : JsNumber) (now_b now_f : Z)
    (upstream_b : Fetched Bootstrap.t) (upstream_f : Fetched (list Fixture.t))
    (w : World) :
  wf_world w ->
  number_falsy parsedId = false ->
  bootstrap_fresh now_b w ->
  fixtures_fresh now_f w ->
  let run :=
    team_fixtures_handler parsedId now_b now_f upstream_b upstream_f w in
  requests run.2 = requests w
  /\ (status run.1 = 200 \/ status run.1 = 404)
  /\ run.1 = (team_fixtures_handler parsedId now_b now_f Rejected
                Rejected w).1
  /\ cachedBootstrap run.2 = cachedBootstrap w
  /\ bootstrapTimestamp run.2 = bootstrapTimestamp w
  /\ cachedFixtures run.2 = cachedFixtures w
  /\ fixturesTimestamp run.2 = fixturesTimestamp w.
Proof.
  intros Hwf Hvalid [[b Hb] Htb] [[l Hl] Htl]. cbn zeta.
  assert (forall ub uf,
            promise_all (getBootstrapStatic now_b ub) (getFixtures now_f uf) w
            = (Returned (b, l), w)) as Hall.
  { intros ub uf. unfold promise_all.
    rewrite (getBootstrapStatic_hit _ _ _ b) by done.
    by rewrite (getFixtures_hit _ _ _ l). }
  rewrite !team_fixtures_handler_valid by done. cbn zeta.
  rewrite !Hall.
  assert (is_Some (heap w !! l)) as [elements Hel].
  { apply lookup_lt_is_Some. unfold wf_world in Hwf. by rewrite Hl in Hwf. }
  rewrite Hel.
  destruct (array_find _ _); simpl; repeat split; auto.
Qed.

Lemma fresh_caches_serve_team_fixtures_without_upstream_witness :
  let run :=
    team_fixtures_handler (Int 3) 2000 2000 (Responded 503 None) Rejected
      sample_world in
  requests run.2 = requests sample_world
  /\ (status run.1 = 200 \/ status run.1 = 404)
  /\ run.1 = (team_fixtures_handler (Int 3) 2000 2000 Rejected Rejected
                sample_world).1
  /\ cachedBootstrap run.2 = cachedBootstrap sample_world
  /\ bootstrapTimestamp run.2 = bootstrapTimestamp sample_world
  /\ cachedFixtures run.2 = cachedFixtures sample_world
  /\ fixturesTimestamp run.2 = fixturesTimestamp sample_world.
Proof.
  apply (fresh_caches_serve_team_fixtures_without_upstream (Int 3) 2000 2000
           (Responded 503 None) Rejected sample_world).
  - vm_compute. reflexivity.
  - reflexivity.
  - split; [by eexists | reflexivity].
  - split; [by eexists | reflexivity].
Defined.
